(** * The webpack configuration factory of my-react

    A shallow embedding of the configuration module (the function exported by
    the webpack config, called with ["development"] or ["production"]) and of
    the module-level constants it closes over.

    Conventions of the embedding:
    - a JS string is a [string]; its characters stand for code units
      below 256, which covers every literal of the module;
    - [undefined] is [None];
    - [a && x] in a literal array followed by [.filter(Boolean)] is
      [guard a x] followed by [filter_Boolean];
    - what the module reads from its host (process.env, process.argv, the
      file system, [require.resolve], the [./paths] and [./env] modules) is
      gathered in one record, [Host];
    - the embedding gives the value the exported function returns: the
      calls into the host that may throw (module resolution, the plugin
      constructors) are taken to succeed, except the resolution the module
      itself guards with try/catch. *)

From Stdlib Require Import String Ascii List Bool ZArith Lia.
From Stdlib Require Import DecimalString DecimalN Sorted.
Import ListNotations.
Open Scope string_scope.
Open Scope Z_scope.

(** ** JavaScript values and helpers *)

(** A Number as [parseInt] produces it: [NaN], or the mathematical integer
    (the specification's mathInt, with its sign) from which the Number is
    taken.  Below 2^53 the Number is that integer; [-0] is [Num 0]. *)
Inductive JSNumber : Type :=
| NaN
| Num (z : Z).

(** [v !== lit] for [v] a string or undefined. *)
Definition strict_neq (v : option string) (lit : string) : bool :=
  match v with
  | None => true
  | Some s => negb (s =? lit)%string
  end.

(** [v === lit] for [v] a string or undefined. *)
Definition strict_eq (v : option string) (lit : string) : bool :=
  negb (strict_neq v lit).

(** [v || dflt] for [v] a string or undefined: the empty string is falsy. *)
Definition or_default (v : option string) (dflt : string) : string :=
  match v with
  | None => dflt
  | Some s => if (s =? "")%string then dflt else s
  end.

(** Truthiness of an optional string argument, as in [if (preProcessor)]. *)
Definition truthy (v : option string) : bool :=
  match v with
  | None => false
  | Some s => negb (s =? "")%string
  end.

(** [a && x] as an array element: [false] (here [None]) or [x]. *)
Definition guard {A : Type} (a : bool) (x : A) : option A :=
  if a then Some x else None.

(** [.filter(Boolean)] on such an array. *)
Fixpoint filter_Boolean {A : Type} (l : list (option A)) : list A :=
  match l with
  | [] => []
  | Some x :: l' => x :: filter_Boolean l'
  | None :: l' => filter_Boolean l'
  end.

(** [s.startsWith(p)] *)
Definition startsWith (p s : string) : bool := prefix p s.

(** [s.endsWith(suf)], also the test of a regular expression [suf$] whose
    body is a literal. *)
Fixpoint endsWith (suf s : string) : bool :=
  (s =? suf)%string ||
  match s with
  | EmptyString => false
  | String _ s' => endsWith suf s'
  end.

(** The last character of a string, if any. *)
Fixpoint lastChar (s : string) : option ascii :=
  match s with
  | EmptyString => None
  | String c EmptyString => Some c
  | String _ s' => lastChar s'
  end.

(** [s.includes(sub)] *)
Fixpoint includes (sub s : string) : bool :=
  prefix sub s ||
  match s with
  | EmptyString => false
  | String _ s' => includes sub s'
  end.

(** [arr.includes(x)] on an array of strings. *)
Definition array_includes (x : string) (arr : list string) : bool :=
  existsb (fun y => (y =? x)%string) arr.

(** *** parseInt(string), radix undefined *)

(** StrWhiteSpaceChar, restricted to code units below 256. *)
Definition isStrWhiteSpaceChar (c : ascii) : bool :=
  let n := nat_of_ascii c in
  ((n =? 9) || (n =? 10) || (n =? 11) || (n =? 12) || (n =? 13)
   || (n =? 32) || (n =? 160))%nat.

Fixpoint trimStart (s : string) : string :=
  match s with
  | EmptyString => EmptyString
  | String c s' => if isStrWhiteSpaceChar c then trimStart s' else s
  end.

Definition digitValue (c : ascii) : option Z :=
  let n := Z.of_nat (nat_of_ascii c) in
  if (48 <=? n) && (n <=? 57) then Some (n - 48)
  else if (97 <=? n) && (n <=? 122) then Some (n - 87)
  else if (65 <=? n) && (n <=? 90) then Some (n - 55)
  else None.

Definition radixDigit (R : Z) (c : ascii) : option Z :=
  match digitValue c with
  | Some d => if d <? R then Some d else None
  | None => None
  end.

(** The longest prefix of radix-[R] digits and its value; [acc] is [None]
    until a first digit has been read. *)
Fixpoint parseDigits (R : Z) (acc : option Z) (s : string) : option Z :=
  match s with
  | EmptyString => acc
  | String c s' =>
      match radixDigit R c with
      | Some d =>
          parseDigits R (Some (match acc with
                               | Some a => a * R + d
                               | None => d
                               end)) s'
      | None => acc
      end
  end.

(** Step 4: a leading [+] or [-] is removed. *)
Definition dropSign (S0 : string) : string :=
  match S0 with
  | String c rest =>
      if (c =? "+")%char || (c =? "-")%char then rest else S0
  | EmptyString => S0
  end.

(** Steps 6 to 8: the radix is 10, or 16 after a leading [0x] or [0X],
    which is removed. *)
Definition stripPrefix (S1 : string) : Z * string :=
  match S1 with
  | String "0" (String x rest) =>
      if (x =? "x")%char || (x =? "X")%char then (16, rest) else (10, S1)
  | _ => (10, S1)
  end.

Definition parseInt (inputString : string) : JSNumber :=
  let S0 := trimStart inputString in
  let sign := if prefix "-" S0 then -1 else 1 in
  let '(R, S2) := stripPrefix (dropSign S0) in
  match parseDigits R None S2 with
  | None => NaN
  | Some mathInt => Num (sign * mathInt)
  end.

(** ** The host of the module *)

(** The fields of [./paths] the configuration reads. *)
Record Paths : Type := {
  appPath : string;
  appSrc : string;
  appIndexJs : string;
  appHtml : string;
  appBuild : string;
  appNodeModules : string;
  appTsConfig : string;
  appPackageJson : string;
  swSrc : string;
  publicUrlOrPath : string
}.

Record Host : Type := {
  (** [process.env] *)
  process_env : string -> option string;
  (** [process.argv] *)
  process_argv : list string;
  (** [process.versions.pnp] is truthy *)
  process_versions_pnp : bool;
  (** [fs.existsSync] *)
  fs_existsSync : string -> bool;
  (** [require.resolve(request)]: the resolved path, [None] when it throws *)
  require_resolve : string -> option string;
  (** [require('./paths')] *)
  paths : Paths;
  (** [getClientEnvironment(...).raw.FAST_REFRESH], a boolean of [./env] *)
  env_raw_FAST_REFRESH : bool;
  (** [MiniCssExtractPlugin.loader] *)
  MiniCssExtractPlugin_loader : string;
  (** [__dirname] *)
  dirname : string
}.

(** [require.resolve(request)] where the module does not catch its
    exception: the path found.  When the request is not found the call
    throws and no configuration is produced; the embedding describes the
    hosts where these calls succeed, and keeps the request itself in place
    of the path on the others. *)
Definition resolved (h : Host) (request : string) : string :=
  match require_resolve h request with
  | Some p => p
  | None => request
  end.

(** ** Module-level constants *)

Section ModuleConstants.
Variable h : Host.

Definition shouldUseSourceMap : bool :=
  strict_neq (process_env h "GENERATE_SOURCEMAP") "false".

Definition webpackDevClientEntry : string :=
  resolved h "react-dev-utils/webpackHotDevClient".

Definition reactRefreshOverlayEntry : string :=
  resolved h "react-dev-utils/refreshOverlayInterop".

Definition shouldInlineRuntimeChunk : bool :=
  strict_neq (process_env h "INLINE_RUNTIME_CHUNK") "false".

Definition imageInlineSizeLimit : JSNumber :=
  parseInt (or_default (process_env h "IMAGE_INLINE_SIZE_LIMIT") "10000").

Definition useTypeScript : bool :=
  fs_existsSync h (appTsConfig (paths h)).

Definition hasJsxRuntime : bool :=
  if strict_eq (process_env h "DISABLE_NEW_JSX_TRANSFORM") "true"
  then false
  else match require_resolve h "react/jsx-runtime" with
       | Some _ => true
       | None => false
       end.
End ModuleConstants.

(** ** The data of a configuration *)

(** A regular expression used as a rule condition: its source text and its
    [test] on a resource path.  The expressions of the module are literals
    anchored with [$] (a suffix test) or unanchored (a substring test). *)
Record RegExp : Type := {
  source : string;
  regexp_test : string -> bool
}.

(** A rule condition: a regular expression, a path (the resource starts
    with it) or an array of conditions (one of them holds). *)
#[local] Unset Elimination Schemes.
Inductive Condition : Type :=
| CondRegExp (r : RegExp)
| CondPath (p : string)
| CondArray (cs : list Condition).
#[local] Set Elimination Schemes.

(** [css-loader] options, the [cssOptions] argument of [getStyleLoaders];
    [modules] is [{ getLocalIdent: getCSSModuleLocalIdent }] when present. *)
Inductive CssModules : Type :=
| GetLocalIdent_getCSSModuleLocalIdent.

Record CssOptions : Type := {
  importLoaders : Z;
  sourceMap : bool;
  modules : option CssModules
}.

Inductive PostcssPlugin : Type :=
| postcss_flexbugs_fixes
| postcss_preset_env (autoprefixer_flexbox : string) (stage : Z)
| postcssNormalize.

Inductive JsxRuntime : Type := automatic | classic.

Inductive BabelPlugin : Type :=
| babel_plugin_named_asset_import (path : string)
    (loaderMap_svg_ReactComponent : string)
| babel_plugin_path (path : string).

Inductive LoaderOptions : Type :=
| UrlLoaderOptions (limit : JSNumber) (mimetype : option string)
    (name : string)
| BabelAppOptions (customize : string)
    (presets : list (string * JsxRuntime)) (plugins : list BabelPlugin)
    (cacheDirectory cacheCompression compact : bool)
| BabelDependenciesOptions (babelrc configFile compact : bool)
    (presets : list (string * bool))
    (cacheDirectory cacheCompression sourceMaps inputSourceMap : bool)
| MiniCssExtractOptions (publicPath : option string)
| CssLoaderOptions (cssOptions : CssOptions)
| PostcssOptions (ident : string) (plugins : list PostcssPlugin)
    (sourceMap : bool)
| ResolveUrlOptions (sourceMap : bool) (root : string)
| PreProcessorOptions (sourceMap : bool)
| FileLoaderOptions (name : string).

(** An element of a loader chain: a bare loader path, or
    [{ loader, options }]. *)
Inductive UseEntry : Type :=
| UseString (loader : string)
| UseObject (loader : string) (options : LoaderOptions).

Definition loaderOf (u : UseEntry) : string :=
  match u with
  | UseString l => l
  | UseObject l _ => l
  end.

(** The [sourceMap] option of a chain element, when it has one. *)
Definition sourceMapOf (u : UseEntry) : option bool :=
  match u with
  | UseObject _ (CssLoaderOptions o) => Some (sourceMap o)
  | UseObject _ (PostcssOptions _ _ sm) => Some sm
  | UseObject _ (ResolveUrlOptions sm _) => Some sm
  | UseObject _ (PreProcessorOptions sm) => Some sm
  | _ => None
  end.

(** The [root] option of a chain element, when it has one. *)
Definition rootOf (u : UseEntry) : option string :=
  match u with
  | UseObject _ (ResolveUrlOptions _ root) => Some root
  | _ => None
  end.

(** A rule of [module.rules[1].oneOf]; [rule_use] is the rule's
    [loader]/[options] pair (a one-element chain) or its [use] array. *)
Record Rule : Type := {
  test : option Condition;
  include : option Condition;
  exclude : option Condition;
  rule_use : list UseEntry;
  sideEffects : option bool
}.

(** [entry]: an array of paths or a single path. *)
Inductive Entry : Type :=
| EntryArray (files : list string)
| EntryPath (file : string).

Record TerserOptions : Type := {
  parse_ecma : Z;
  compress_ecma : Z;
  compress_warnings : bool;
  compress_comparisons : bool;
  compress_inline : Z;
  mangle_safari10 : bool;
  keep_classnames : bool;
  keep_fnames : bool;
  output_ecma : Z;
  output_comments : bool;
  output_ascii_only : bool
}.

(** [cssProcessorOptions.map]: [false], or [{ inline, annotation }]. *)
Inductive CssMap : Type :=
| CssMapFalse
| CssMapObject (inline annotation : bool).

Inductive Minimizer : Type :=
| TerserPlugin (terserOptions : TerserOptions) (sourceMap : bool)
| OptimizeCSSAssetsPlugin (parser : string) (map : CssMap)
    (preset_name : string) (minifyFontValues_removeQuotes : bool).

Record SplitChunks : Type := {
  chunks : string;
  (** [name: false] *)
  splitChunks_name : option string
}.

Record RuntimeChunk : Type := {
  (** [entrypoint => ...], as a function of [entrypoint.name] *)
  runtimeChunk_name : string -> string
}.

Record Optimization : Type := {
  minimize : bool;
  minimizer : list Minimizer;
  splitChunks : SplitChunks;
  runtimeChunk : RuntimeChunk
}.

Record HtmlMinify : Type := {
  removeComments : bool;
  collapseWhitespace : bool;
  removeRedundantAttributes : bool;
  useShortDoctype : bool;
  removeEmptyAttributes : bool;
  removeStyleLinkTypeAttributes : bool;
  keepClosingSlash : bool;
  minifyJS : bool;
  minifyCSS : bool;
  minifyURLs : bool
}.

(** The plugins of the [plugins] array.  Regular expressions handed to a
    plugin are kept as their source text; the arguments taken from [./env]
    ([env.raw], [env.stringified]) and the function-valued options are not
    kept. *)
Inductive Plugin : Type :=
| HtmlWebpackPlugin (inject : bool) (template : string)
    (minify : option HtmlMinify)
| InlineChunkHtmlPlugin (tests : list string)
| InterpolateHtmlPlugin
| ModuleNotFoundPlugin (appPath : string)
| DefinePlugin
| HotModuleReplacementPlugin
| ReactRefreshWebpackPlugin (overlay_entry overlay_module : string)
    (overlay_sockIntegration : bool)
| CaseSensitivePathsPlugin
| WatchMissingNodeModulesPlugin (nodeModulesPath : string)
| MiniCssExtractPlugin (filename chunkFilename : string)
| ManifestPlugin (fileName publicPath : string)
| IgnorePlugin (resourceRegExp contextRegExp : string)
| InjectManifest (swSrc : string) (dontCacheBustURLsMatching : string)
    (exclude : list string)
| ForkTsCheckerWebpackPlugin (basedir : string) (async : bool)
    (checkSyntacticErrors : bool) (resolveModuleNameModule : option string)
    (resolveTypeReferenceDirectiveModule : option string)
    (tsconfig : string) (reportFiles : list string) (silent : bool)
    (formatter : option string)
| ESLintPlugin (extensions : list string) (formatter eslintPath : string)
    (context cwd resolvePluginsRelativeTo : string)
    (baseConfig_extends : list string)
    (baseConfig_rules : list (string * string)).

(** The class a plugin is an instance of. *)
Inductive PluginClass : Type :=
| HtmlEmission
| RuntimeChunkInlining
| EnvInterpolation
| ModuleNotFoundDiagnostics
| GlobalDefine
| HotModuleReplacement
| FastRefresh
| CaseSensitivityGuard
| MissingModuleWatcher
| CssExtraction
| AssetManifest
| LocaleStripping
| ServiceWorkerInjection
| TypeChecking
| LintOnBuild.

Definition classOf (p : Plugin) : PluginClass :=
  match p with
  | HtmlWebpackPlugin _ _ _ => HtmlEmission
  | InlineChunkHtmlPlugin _ => RuntimeChunkInlining
  | InterpolateHtmlPlugin => EnvInterpolation
  | ModuleNotFoundPlugin _ => ModuleNotFoundDiagnostics
  | DefinePlugin => GlobalDefine
  | HotModuleReplacementPlugin => HotModuleReplacement
  | ReactRefreshWebpackPlugin _ _ _ => FastRefresh
  | CaseSensitivePathsPlugin => CaseSensitivityGuard
  | WatchMissingNodeModulesPlugin _ => MissingModuleWatcher
  | MiniCssExtractPlugin _ _ => CssExtraction
  | ManifestPlugin _ _ => AssetManifest
  | IgnorePlugin _ _ => LocaleStripping
  | InjectManifest _ _ _ => ServiceWorkerInjection
  | ForkTsCheckerWebpackPlugin _ _ _ _ _ _ _ _ _ => TypeChecking
  | ESLintPlugin _ _ _ _ _ _ _ _ => LintOnBuild
  end.

Definition PluginClass_eqb (a b : PluginClass) : bool :=
  match a, b with
  | HtmlEmission, HtmlEmission
  | RuntimeChunkInlining, RuntimeChunkInlining
  | EnvInterpolation, EnvInterpolation
  | ModuleNotFoundDiagnostics, ModuleNotFoundDiagnostics
  | GlobalDefine, GlobalDefine
  | HotModuleReplacement, HotModuleReplacement
  | FastRefresh, FastRefresh
  | CaseSensitivityGuard, CaseSensitivityGuard
  | MissingModuleWatcher, MissingModuleWatcher
  | CssExtraction, CssExtraction
  | AssetManifest, AssetManifest
  | LocaleStripping, LocaleStripping
  | ServiceWorkerInjection, ServiceWorkerInjection
  | TypeChecking, TypeChecking
  | LintOnBuild, LintOnBuild => true
  | _, _ => false
  end.

(** The object the exported function returns, restricted to the fields of
    the pipeline: [module_rules_oneOf] is [module.rules[1].oneOf]. *)
Record Configuration : Type := {
  (** ['production'], ['development'] or [false] *)
  mode : option string;
  bail : bool;
  (** a devtool name, or [false] *)
  devtool : option string;
  entry : Entry;
  optimization : Optimization;
  module_rules_oneOf : list Rule;
  plugins : list Plugin
}.

(** ** Rule conditions and rule selection, as the bundler evaluates them *)

(** A condition holds of a resource path. *)
Fixpoint cond_matches (c : Condition) (resource : string) : bool :=
  match c with
  | CondRegExp r => regexp_test r resource
  | CondPath p => startsWith p resource
  | CondArray cs => existsb (fun c' => cond_matches c' resource) cs
  end.

Definition opt_cond (dflt : bool) (c : option Condition) (resource : string)
  : bool :=
  match c with
  | None => dflt
  | Some c' => cond_matches c' resource
  end.

(** A rule applies to a resource when its [test] and [include] hold (a
    missing one counts as holding) and its [exclude] does not. *)
Definition rule_matches (r : Rule) (resource : string) : bool :=
  opt_cond true (test r) resource
  && opt_cond true (include r) resource
  && negb (opt_cond false (exclude r) resource).

(** [oneOf]: the position of the first rule that applies, if any. *)
Fixpoint oneOf_index (rules : list Rule) (resource : string) : option nat :=
  match rules with
  | [] => None
  | r :: rest =>
      if rule_matches r resource then Some 0%nat
      else option_map S (oneOf_index rest resource)
  end.

(** [oneOf]: the first rule that applies, if any. *)
Definition oneOf_select (rules : list Rule) (resource : string)
  : option Rule :=
  match oneOf_index rules resource with
  | Some i => nth_error rules i
  | None => None
  end.

(** ** The regular expressions of the module *)

Definition suffixRegExp (src suf : string) : RegExp :=
  {| source := src; regexp_test := endsWith suf |}.

Definition anyRegExp (src : string) (tests : list (string -> bool)) : RegExp :=
  {| source := src;
     regexp_test := fun s => existsb (fun t => t s) tests |}.

(** style files regexes *)
Definition cssRegex : RegExp := suffixRegExp "\.css$" ".css".
Definition cssModuleRegex : RegExp :=
  suffixRegExp "\.module\.css$" ".module.css".
Definition sassRegex : RegExp :=
  anyRegExp "\.(scss|sass)$" [endsWith ".scss"; endsWith ".sass"].
Definition sassModuleRegex : RegExp :=
  anyRegExp "\.module\.(scss|sass)$"
    [endsWith ".module.scss"; endsWith ".module.sass"].

(** the regular expressions written in place in the rules *)
Definition avifRegex : RegExp := suffixRegExp "\.avif$" ".avif".
Definition bmpRegex : RegExp := suffixRegExp "\.bmp$" ".bmp".
Definition gifRegex : RegExp := suffixRegExp "\.gif$" ".gif".
Definition jpegRegex : RegExp :=
  anyRegExp "\.jpe?g$" [endsWith ".jpg"; endsWith ".jpeg"].
Definition pngRegex : RegExp := suffixRegExp "\.png$" ".png".
Definition appScriptRegex : RegExp :=
  anyRegExp "\.(js|mjs|jsx|ts|tsx)$"
    [endsWith ".js"; endsWith ".mjs"; endsWith ".jsx"; endsWith ".ts";
     endsWith ".tsx"].
Definition scriptRegex : RegExp :=
  anyRegExp "\.(js|mjs)$" [endsWith ".js"; endsWith ".mjs"].
(** [@babel], then a slash or one or two backslashes, then [runtime] *)
Definition babelRuntimeRegex : RegExp :=
  anyRegExp "@babel(?:\/|\\{1,2})runtime"
    [includes "@babel/runtime"; includes "@babel\runtime";
     includes "@babel\\runtime"].
Definition htmlRegex : RegExp := suffixRegExp "\.html$" ".html".
Definition jsonRegex : RegExp := suffixRegExp "\.json$" ".json".

(** ** The exported function *)

Section Factory.
Variable h : Host.
Variable webpackEnv : string.

Definition isEnvDevelopment : bool := (webpackEnv =? "development")%string.
Definition isEnvProduction : bool := (webpackEnv =? "production")%string.

(** Variable used for enabling profiling in Production. *)
Definition isEnvProductionProfile : bool :=
  isEnvProduction && array_includes "--profile" (process_argv h).

Definition shouldUseReactRefresh : bool := env_raw_FAST_REFRESH h.

(** [isEnvProduction ? shouldUseSourceMap : isEnvDevelopment] *)
Definition styleSourceMap : bool :=
  if isEnvProduction then shouldUseSourceMap h else isEnvDevelopment.

(** common function to get style loaders *)
Definition getStyleLoaders (cssOptions : CssOptions)
  (preProcessor : option string) : list UseEntry :=
  let loaders :=
    filter_Boolean
      [ guard isEnvDevelopment (UseString (resolved h "style-loader"));
        guard isEnvProduction
          (UseObject (MiniCssExtractPlugin_loader h)
             (MiniCssExtractOptions
                (if startsWith "." (publicUrlOrPath (paths h))
                 then Some "../../" else None)));
        Some (UseObject (resolved h "css-loader")
                (CssLoaderOptions cssOptions));
        Some (UseObject (resolved h "postcss-loader")
                (PostcssOptions "postcss"
                   [ postcss_flexbugs_fixes;
                     postcss_preset_env "no-2009" 3;
                     postcssNormalize ]
                   styleSourceMap)) ] in
  match preProcessor with
  | Some p =>
      if truthy (Some p)
      then loaders ++
           [ UseObject (resolved h "resolve-url-loader")
               (ResolveUrlOptions styleSourceMap (appSrc (paths h)));
             UseObject (resolved h p) (PreProcessorOptions true) ]
      else loaders
  | None => loaders
  end.

Definition entry_ : Entry :=
  if isEnvDevelopment && negb shouldUseReactRefresh
  then EntryArray [webpackDevClientEntry h; appIndexJs (paths h)]
  else EntryPath (appIndexJs (paths h)).

Definition optimization_ : Optimization :=
  {| minimize := isEnvProduction;
     minimizer :=
       [ TerserPlugin
           {| parse_ecma := 8;
              compress_ecma := 5;
              compress_warnings := false;
              compress_comparisons := false;
              compress_inline := 2;
              mangle_safari10 := true;
              keep_classnames := isEnvProductionProfile;
              keep_fnames := isEnvProductionProfile;
              output_ecma := 5;
              output_comments := false;
              output_ascii_only := true |}
           (shouldUseSourceMap h);
         OptimizeCSSAssetsPlugin "postcss-safe-parser"
           (if shouldUseSourceMap h
            then CssMapObject false true else CssMapFalse)
           "default" false ];
     splitChunks := {| chunks := "all"; splitChunks_name := None |};
     runtimeChunk :=
       {| runtimeChunk_name := fun entrypoint_name =>
                                 "runtime-" ++ entrypoint_name |} |}.

Definition mediaName : string := "static/media/[name].[hash:8].[ext]".

(** The rules of [oneOf], in the order of the array. *)

Definition avifRule : Rule :=
  {| test := Some (CondArray [CondRegExp avifRegex]);
     include := None;
     exclude := None;
     rule_use :=
       [ UseObject (resolved h "url-loader")
           (UrlLoaderOptions (imageInlineSizeLimit h) (Some "image/avif")
              mediaName) ];
     sideEffects := None |}.

Definition imageRule : Rule :=
  {| test := Some (CondArray [CondRegExp bmpRegex; CondRegExp gifRegex;
                              CondRegExp jpegRegex; CondRegExp pngRegex]);
     include := None;
     exclude := None;
     rule_use :=
       [ UseObject (resolved h "url-loader")
           (UrlLoaderOptions (imageInlineSizeLimit h) None mediaName) ];
     sideEffects := None |}.

(** Process application JS with Babel. *)
Definition appScriptRule : Rule :=
  {| test := Some (CondRegExp appScriptRegex);
     include := Some (CondPath (appSrc (paths h)));
     exclude := None;
     rule_use :=
       [ UseObject (resolved h "babel-loader")
           (BabelAppOptions
              (resolved h "babel-preset-react-app/webpack-overrides")
              [ (resolved h "babel-preset-react-app",
                 if hasJsxRuntime h then automatic else classic) ]
              (filter_Boolean
                 [ Some (babel_plugin_named_asset_import
                           (resolved h "babel-plugin-named-asset-import")
                           "@svgr/webpack?-svgo,+titleProp,+ref![path]");
                   guard (isEnvDevelopment && shouldUseReactRefresh)
                     (babel_plugin_path
                        (resolved h "react-refresh/babel")) ])
              true false isEnvProduction) ];
     sideEffects := None |}.

(** Process any JS outside of the app with Babel. *)
Definition dependencyScriptRule : Rule :=
  {| test := Some (CondRegExp scriptRegex);
     include := None;
     exclude := Some (CondRegExp babelRuntimeRegex);
     rule_use :=
       [ UseObject (resolved h "babel-loader")
           (BabelDependenciesOptions false false false
              [ (resolved h "babel-preset-react-app/dependencies", true) ]
              true false (shouldUseSourceMap h) (shouldUseSourceMap h)) ];
     sideEffects := None |}.

Definition cssRule : Rule :=
  {| test := Some (CondRegExp cssRegex);
     include := None;
     exclude := Some (CondRegExp cssModuleRegex);
     rule_use :=
       getStyleLoaders
         {| importLoaders := 1; sourceMap := styleSourceMap;
            modules := None |} None;
     sideEffects := Some true |}.

Definition cssModuleRule : Rule :=
  {| test := Some (CondRegExp cssModuleRegex);
     include := None;
     exclude := None;
     rule_use :=
       getStyleLoaders
         {| importLoaders := 1; sourceMap := styleSourceMap;
            modules := Some GetLocalIdent_getCSSModuleLocalIdent |} None;
     sideEffects := None |}.

Definition sassRule : Rule :=
  {| test := Some (CondRegExp sassRegex);
     include := None;
     exclude := Some (CondRegExp sassModuleRegex);
     rule_use :=
       getStyleLoaders
         {| importLoaders := 3; sourceMap := styleSourceMap;
            modules := None |} (Some "sass-loader");
     sideEffects := Some true |}.

Definition sassModuleRule : Rule :=
  {| test := Some (CondRegExp sassModuleRegex);
     include := None;
     exclude := None;
     rule_use :=
       getStyleLoaders
         {| importLoaders := 3; sourceMap := styleSourceMap;
            modules := Some GetLocalIdent_getCSSModuleLocalIdent |}
         (Some "sass-loader");
     sideEffects := None |}.

(** The "file" loader: no [test], so it catches the modules that fall
    through the other rules, except the excluded extensions. *)
Definition fileLoaderRule : Rule :=
  {| test := None;
     include := None;
     exclude := Some (CondArray [CondRegExp appScriptRegex;
                                 CondRegExp htmlRegex;
                                 CondRegExp jsonRegex]);
     rule_use :=
       [ UseObject (resolved h "file-loader")
           (FileLoaderOptions mediaName) ];
     sideEffects := None |}.

Definition oneOf : list Rule :=
  [ avifRule; imageRule; appScriptRule; dependencyScriptRule;
    cssRule; cssModuleRule; sassRule; sassModuleRule; fileLoaderRule ].

Definition htmlMinify : HtmlMinify :=
  {| removeComments := true;
     collapseWhitespace := true;
     removeRedundantAttributes := true;
     useShortDoctype := true;
     removeEmptyAttributes := true;
     removeStyleLinkTypeAttributes := true;
     keepClosingSlash := true;
     minifyJS := true;
     minifyCSS := true;
     minifyURLs := true |}.

Definition pnpTs : option string :=
  if process_versions_pnp h then Some (dirname h ++ "/pnpTs.js") else None.

(** The literal [plugins] array, before [.filter(Boolean)]. *)
Definition plugins_literal : list (option Plugin) :=
  [ Some (HtmlWebpackPlugin true (appHtml (paths h))
            (if isEnvProduction then Some htmlMinify else None));
    guard (isEnvProduction && shouldInlineRuntimeChunk h)
      (InlineChunkHtmlPlugin ["runtime-.+[.]js"]);
    Some InterpolateHtmlPlugin;
    Some (ModuleNotFoundPlugin (appPath (paths h)));
    Some DefinePlugin;
    guard isEnvDevelopment HotModuleReplacementPlugin;
    guard (isEnvDevelopment && shouldUseReactRefresh)
      (ReactRefreshWebpackPlugin (webpackDevClientEntry h)
         (reactRefreshOverlayEntry h) false);
    guard isEnvDevelopment CaseSensitivePathsPlugin;
    guard isEnvDevelopment
      (WatchMissingNodeModulesPlugin (appNodeModules (paths h)));
    guard isEnvProduction
      (MiniCssExtractPlugin "static/css/[name].[contenthash:8].css"
         "static/css/[name].[contenthash:8].chunk.css");
    Some (ManifestPlugin "asset-manifest.json" (publicUrlOrPath (paths h)));
    Some (IgnorePlugin "^\.\/locale$" "moment$");
    guard (isEnvProduction && fs_existsSync h (swSrc (paths h)))
      (InjectManifest (swSrc (paths h)) "\.[0-9a-f]{8}\."
         ["\.map$"; "asset-manifest\.json$"; "LICENSE"]);
    guard (useTypeScript h)
      (ForkTsCheckerWebpackPlugin (appNodeModules (paths h))
         isEnvDevelopment true pnpTs pnpTs (appTsConfig (paths h))
         [ "../**/src/**/*.{ts,tsx}";
           "**/src/**/*.{ts,tsx}";
           "!**/src/**/__tests__/**";
           "!**/src/**/?(*.)(spec|test).*";
           "!**/src/setupProxy.*";
           "!**/src/setupTests.*" ]
         true
         (if isEnvProduction
          then Some "react-dev-utils/typescriptFormatter" else None));
    Some (ESLintPlugin ["js"; "mjs"; "jsx"; "ts"; "tsx"]
            (resolved h "react-dev-utils/eslintFormatter")
            (resolved h "eslint")
            (appSrc (paths h)) (appPath (paths h)) (dirname h)
            [resolved h "eslint-config-react-app/base"]
            (if negb (hasJsxRuntime h)
             then [("react/react-in-jsx-scope", "error")] else [])) ].

Definition plugins_ : list Plugin := filter_Boolean plugins_literal.

Definition webpack_config : Configuration :=
  {| mode := if isEnvProduction then Some "production"
             else guard isEnvDevelopment "development";
     bail := isEnvProduction;
     devtool := if isEnvProduction
                then (if shouldUseSourceMap h
                      then Some "source-map" else None)
                else guard isEnvDevelopment "cheap-module-source-map";
     entry := entry_;
     optimization := optimization_;
     module_rules_oneOf := oneOf;
     plugins := plugins_ |}.

End Factory.

(** ** The optimization stages in effect

    The bundler runs the [minimizer] entries only when [minimize] is true;
    the [splitChunks] and [runtimeChunk] settings apply as they are given.
    The stages in effect are, in order, the active minimizers and then
    chunk splitting together with the runtime chunk. *)
Inductive OptimizationStage : Type :=
| Minify (m : Minimizer)
| SplitChunksAndRuntimeChunk (s : SplitChunks) (r : RuntimeChunk).

Definition optimizationStages (o : Optimization) : list OptimizationStage :=
  (if minimize o then map Minify (minimizer o) else [])
  ++ [SplitChunksAndRuntimeChunk (splitChunks o) (runtimeChunk o)].

(** What a stage does. *)
Inductive StageKind : Type :=
| ScriptMinification
| StylesheetMinification
| ChunkSplittingWithRuntimeChunk.

Definition stageKind (s : OptimizationStage) : StageKind :=
  match s with
  | Minify (TerserPlugin _ _) => ScriptMinification
  | Minify (OptimizeCSSAssetsPlugin _ _ _ _) => StylesheetMinification
  | SplitChunksAndRuntimeChunk _ _ => ChunkSplittingWithRuntimeChunk
  end.

(** ** A concrete host, for evaluating the configuration *)

Definition samplePaths : Paths :=
  {| appPath := "/app";
     appSrc := "/app/src";
     appIndexJs := "/app/src/index.js";
     appHtml := "/app/public/index.html";
     appBuild := "/app/build";
     appNodeModules := "/app/node_modules";
     appTsConfig := "/app/tsconfig.json";
     appPackageJson := "/app/package.json";
     swSrc := "/app/src/service-worker.js";
     publicUrlOrPath := "/" |}.

(** A host with the given environment variables, fast-refresh flag and
    TypeScript configuration; every [require.resolve] succeeds. *)
Definition sampleHost (env : list (string * string)) (fastRefresh : bool)
  (typeScript : bool) : Host :=
  {| process_env := fun k =>
       option_map snd (find (fun kv => (fst kv =? k)%string) env);
     process_argv := ["node"; "scripts/build.js"];
     process_versions_pnp := false;
     fs_existsSync := fun p =>
       typeScript && (p =? "/app/tsconfig.json")%string;
     require_resolve := fun r => Some ("/app/node_modules/" ++ r);
     paths := samplePaths;
     env_raw_FAST_REFRESH := fastRefresh;
     MiniCssExtractPlugin_loader :=
       "/app/node_modules/mini-css-extract-plugin/dist/loader.js";
     dirname := "/app/config" |}.

(** ** Objects with string values *)

(** An ordinary object (extensible, inheriting from [Object.prototype])
    whose own properties hold strings, as the list of its own properties.
    Only lookups are observed. *)
Definition JSObject : Type := list (string * string).

(** The own property [k] of [o]. *)
Definition obj_get (o : JSObject) (k : string) : option string :=
  option_map snd (find (fun kv => (fst kv =? k)%string) o).

Definition has_own (o : JSObject) (k : string) : bool :=
  match obj_get o k with
  | Some _ => true
  | None => false
  end.

(** The value of an existing own property is replaced. *)
Fixpoint obj_update (o : JSObject) (k v : string) : JSObject :=
  match o with
  | [] => []
  | (k', v') :: o' =>
      if (k' =? k)%string then (k, v) :: o'
      else (k', v') :: obj_update o' k v
  end.

(** CreateDataProperty, as an object literal and a spread define their
    properties. *)
Definition obj_define (o : JSObject) (k v : string) : JSObject :=
  if has_own o k then obj_update o k v else (o ++ [(k, v)])%list.

(** The assignment [o[k] = v] of a string.  An own property is updated;
    otherwise the assignment goes through the prototype: [__proto__] is an
    accessor of [Object.prototype] whose setter ignores a string, every
    other key becomes a new own property. *)
Definition obj_assign (o : JSObject) (k v : string) : JSObject :=
  if has_own o k then obj_update o k v
  else if (k =? "__proto__")%string then o
  else (o ++ [(k, v)])%list.

(** [{ ...target, ...src }]: the properties of [src] are defined on a copy
    of [target], in order. *)
Definition obj_spread (target src : JSObject) : JSObject :=
  fold_left (fun o kv => obj_define o (fst kv) (snd kv)) src target.

(** The own property names of an object are distinct. *)
Definition wf_obj (o : JSObject) : Prop := NoDup (map fst o).

(** ** The rest of the returned object *)

(** What the module reads besides [Host]: [paths.moduleFileExtensions],
    the [name] of the package description it requires, and the two fields
    of [./modules]. *)
Record Project : Type := {
  moduleFileExtensions : list string;
  appPackageJson_name : string;
  (** [modules.additionalModulePaths], possibly undefined *)
  additionalModulePaths : option (list string);
  (** [modules.webpackAliases], possibly undefined *)
  webpackAliases : option JSObject
}.

(** The [output] object, without its function-valued field. *)
Record Output : Type := {
  (** [paths.appBuild] or undefined *)
  output_path : option string;
  pathinfo : bool;
  (** a template, or [false] *)
  output_filename : option string;
  futureEmitAssets : bool;
  (** a template, or [false] *)
  output_chunkFilename : option string;
  output_publicPath : string;
  jsonpFunction : string;
  globalObject : string
}.

Section FactoryRemainder.
Variable h : Host.
Variable webpackEnv : string.
Variable project : Project.

Definition output_ : Output :=
  {| output_path :=
       if isEnvProduction webpackEnv then Some (appBuild (paths h))
       else None;
     pathinfo := isEnvDevelopment webpackEnv;
     output_filename :=
       if isEnvProduction webpackEnv
       then Some "static/js/[name].[contenthash:8].js"
       else guard (isEnvDevelopment webpackEnv) "static/js/bundle.js";
     futureEmitAssets := true;
     output_chunkFilename :=
       if isEnvProduction webpackEnv
       then Some "static/js/[name].[contenthash:8].chunk.js"
       else guard (isEnvDevelopment webpackEnv) "static/js/[name].chunk.js";
     output_publicPath := publicUrlOrPath (paths h);
     jsonpFunction := ("webpackJsonp" ++ appPackageJson_name project)%string;
     globalObject := "this" |}.

(** [resolve.modules] *)
Definition resolve_modules : list string :=
  (["node_modules"; appNodeModules (paths h)]
   ++ match additionalModulePaths project with
      | Some l => l
      | None => []
      end)%list.

(** [resolve.extensions] *)
Definition resolve_extensions : list string :=
  filter (fun ext => useTypeScript h || negb (includes "ts" ext))
    (map (fun ext => ("." ++ ext)%string) (moduleFileExtensions project)).

(** [resolve.alias] *)
Definition resolve_alias : JSObject :=
  obj_spread
    (obj_spread [("react-native", "react-native-web")]
       (if isEnvProductionProfile h webpackEnv
        then [("react-dom$", "react-dom/profiling");
              ("scheduler/tracing", "scheduler/tracing-profiling")]
        else []))
    (match webpackAliases project with
     | Some aliases => aliases
     | None => []
     end).

End FactoryRemainder.

(** ** The [generate] function of the manifest plugin *)

Record FileDescriptor : Type := {
  file_name : string;
  file_path : string
}.

Record Entrypoints : Type := {
  main : list string
}.

(** The object [generate] returns; [manifest_files] is the seed object
    itself, after the assignments. *)
Record Manifest : Type := {
  manifest_files : JSObject;
  manifest_entrypoints : list string
}.

Definition generate (seed : JSObject) (files : list FileDescriptor)
  (entrypoints : Entrypoints) : Manifest :=
  let manifestFiles :=
    fold_left
      (fun manifest file =>
         obj_assign manifest (file_name file) (file_path file))
      files seed in
  let entrypointFiles :=
    filter (fun fileName => negb (endsWith ".map" fileName))
      (main entrypoints) in
  {| manifest_files := manifestFiles;
     manifest_entrypoints := entrypointFiles |}.

(** ** Readers of the configuration *)

(** The position of a plugin class in the literal [plugins] array. *)
Definition rank (c : PluginClass) : nat :=
  match c with
  | HtmlEmission => 0
  | RuntimeChunkInlining => 1
  | EnvInterpolation => 2
  | ModuleNotFoundDiagnostics => 3
  | GlobalDefine => 4
  | HotModuleReplacement => 5
  | FastRefresh => 6
  | CaseSensitivityGuard => 7
  | MissingModuleWatcher => 8
  | CssExtraction => 9
  | AssetManifest => 10
  | LocaleStripping => 11
  | ServiceWorkerInjection => 12
  | TypeChecking => 13
  | LintOnBuild => 14
  end.

(** The Babel plugin paths of a chain element. *)
Definition babelPluginPathsOf (u : UseEntry) : list string :=
  match u with
  | UseObject _ (BabelAppOptions _ _ ps _ _ _) =>
      map (fun p => match p with
                    | babel_plugin_named_asset_import path _ => path
                    | babel_plugin_path path => path
                    end) ps
  | _ => []
  end.

(** The JSX runtimes of the Babel presets of a chain element. *)
Definition jsxRuntimesOf (u : UseEntry) : list JsxRuntime :=
  match u with
  | UseObject _ (BabelAppOptions _ presets _ _ _ _) => map snd presets
  | _ => []
  end.

(** The [baseConfig.rules] of the lint plugin. *)
Definition eslintRulesOf (p : Plugin) : list (string * string) :=
  match p with
  | ESLintPlugin _ _ _ _ _ _ _ rules => rules
  | _ => []
  end.

(** The [overlay.entry] of the fast-refresh plugin. *)
Definition overlayEntryOf (p : Plugin) : option string :=
  match p with
  | ReactRefreshWebpackPlugin overlay_entry _ _ => Some overlay_entry
  | _ => None
  end.

(** The options of the first css-loader step of a chain and the steps that
    follow it. *)
Fixpoint afterCssLoader (chain : list UseEntry)
  : option (CssOptions * list UseEntry) :=
  match chain with
  | [] => None
  | UseObject _ (CssLoaderOptions o) :: rest => Some (o, rest)
  | _ :: rest => afterCssLoader rest
  end.

(** The style rules of [oneOf]. *)
Definition styleRules (h : Host) (webpackEnv : string) : list Rule :=
  [ cssRule h webpackEnv; cssModuleRule h webpackEnv;
    sassRule h webpackEnv; sassModuleRule h webpackEnv ].

(** Whether a minimizer produces source maps. *)
Definition minimizerSourceMapOf (m : Minimizer) : bool :=
  match m with
  | TerserPlugin _ sm => sm
  | OptimizeCSSAssetsPlugin _ CssMapFalse _ _ => false
  | OptimizeCSSAssetsPlugin _ (CssMapObject _ _) _ _ => true
  end.





(** * Properties *)

(** ** Helper lemmas *)

Lemma isEnvDevelopment_iff (webpackEnv : string) :
  isEnvDevelopment webpackEnv = true <-> webpackEnv = "development".
Proof. unfold isEnvDevelopment. apply String.eqb_eq. Qed.

Lemma isEnvProduction_iff (webpackEnv : string) :
  isEnvProduction webpackEnv = true <-> webpackEnv = "production".
Proof. unfold isEnvProduction. apply String.eqb_eq. Qed.

Lemma guard_Some {A : Type} (b : bool) (x y : A) :
  guard b x = Some y <-> b = true /\ x = y.
Proof.
  destruct b; simpl; split.
  - intros [= ->]. auto.
  - intros [_ ->]. reflexivity.
  - discriminate.
  - intros [[=] _].
Qed.

Lemma In_filter_Boolean {A : Type} (l : list (option A)) (x : A) :
  In x (filter_Boolean l) <-> In (Some x) l.
Proof.
  induction l as [|[y|] l IH]; simpl.
  - tauto.
  - rewrite IH. split; intros [H|H]; auto.
    + left. now f_equal.
    + left. now injection H.
  - rewrite IH. split; [auto|]. intros [H|H]; [discriminate|assumption].
Qed.

(** The source-map setting shared by the style steps, by mode. *)
Lemma styleSourceMap_production (h : Host) :
  styleSourceMap h "production" = shouldUseSourceMap h.
Proof. reflexivity. Qed.

Lemma styleSourceMap_development (h : Host) :
  styleSourceMap h "development" = true.
Proof. reflexivity. Qed.

(** *** parseInt *)

Lemma parseDigits_None (R : Z) (s : string) :
  parseDigits R None s = None <->
  match s with
  | EmptyString => True
  | String c _ => radixDigit R c = None
  end.
Proof.
  destruct s as [|c s]; simpl; [tauto|].
  destruct (radixDigit R c) as [d|]; [|tauto].
  split; [|discriminate].
  intros H. exfalso. revert H. generalize d. clear d.
  induction s as [|c' s IH]; simpl; intros d; [discriminate|].
  destruct (radixDigit R c'); [apply IH|discriminate].
Qed.

Lemma dropSign_other (c : ascii) (rest : string) :
  c <> "+"%char -> c <> "-"%char -> dropSign (String c rest) = String c rest.
Proof.
  intros Hplus Hminus. unfold dropSign.
  apply Ascii.eqb_neq in Hplus, Hminus.
  rewrite Hplus, Hminus. reflexivity.
Qed.

Lemma stripPrefix_other (c : ascii) (rest : string) :
  c <> "0"%char -> stripPrefix (String c rest) = (10, String c rest).
Proof.
  intros Hzero.
  destruct c as [[] [] [] [] [] [] [] []]; try reflexivity.
  exfalso. apply Hzero. reflexivity.
Qed.

Lemma or_default_spec (v : option string) (dflt : string) :
  or_default v dflt =
  match v with
  | None => dflt
  | Some EmptyString => dflt
  | Some s => s
  end.
Proof. destruct v as [[|c s]|]; reflexivity. Qed.

(** ** The image inline size limit (C7) *)

(** C7, as stated, fails: the raw value ["abc"] does not parse as an
    integer, and the resolved limit is [NaN] rather than the default 10000;
    the raw value ["-5"] resolves to the negative integer -5.  So the
    resolved value is not always a non-negative integer. *)
Lemma imageInlineSizeLimit_no_fallback :
  let h := sampleHost [("IMAGE_INLINE_SIZE_LIMIT", "abc")] true false in
  let h' := sampleHost [("IMAGE_INLINE_SIZE_LIMIT", "-5")] true false in
  process_env h "IMAGE_INLINE_SIZE_LIMIT" = Some "abc"
  /\ parseInt "abc" = NaN
  /\ imageInlineSizeLimit h = NaN
  /\ imageInlineSizeLimit h <> Num 10000
  /\ imageInlineSizeLimit h' = Num (-5)
  /\ ~ (exists z, 0 <= z /\ imageInlineSizeLimit h = Num z)
  /\ ~ (exists z, 0 <= z /\ imageInlineSizeLimit h' = Num z).
Proof.
  cbv zeta. repeat split; try reflexivity; try discriminate.
  - intros [z [_ H]]. discriminate H.
  - intros [z [Hz H]]. vm_compute in H. injection H as <-. lia.
Qed.

(** C7, amended: the limit is 10000 when the raw environment value is
    absent or the empty string; any other raw value is handed to [parseInt]
    and its result is the limit, with no fallback: when the value, after
    leading white space, does not start with a sign or a decimal digit the
    limit is [NaN]. *)
Theorem imageInlineSizeLimit_resolved (h : Host) :
  let raw := process_env h "IMAGE_INLINE_SIZE_LIMIT" in
  (raw = None -> imageInlineSizeLimit h = Num 10000)
  /\ (raw = Some "" -> imageInlineSizeLimit h = Num 10000)
  /\ (forall s, raw = Some s -> s <> "" ->
        imageInlineSizeLimit h = parseInt s)
  /\ (forall s c rest, raw = Some s -> trimStart s = String c rest ->
        c <> "+"%char -> c <> "-"%char -> radixDigit 10 c = None ->
        imageInlineSizeLimit h = NaN).
Proof.
  cbv zeta. unfold imageInlineSizeLimit.
  repeat split.
  - intros ->. reflexivity.
  - intros ->. reflexivity.
  - intros s -> Hs. rewrite or_default_spec.
    destruct s; [contradiction|reflexivity].
  - intros s c rest -> Htrim Hplus Hminus Hdigit.
    rewrite or_default_spec.
    destruct s as [|c0 s0]; [discriminate Htrim|].
    unfold parseInt. rewrite Htrim.
    rewrite (dropSign_other c rest Hplus Hminus).
    rewrite stripPrefix_other by (intros ->; discriminate Hdigit).
    assert (HN : parseDigits 10 None (String c rest) = None)
      by (apply parseDigits_None; exact Hdigit).
    rewrite HN. reflexivity.
Qed.

Lemma imageInlineSizeLimit_resolved_witness :
  let h := sampleHost [("IMAGE_INLINE_SIZE_LIMIT", "20000")] true false in
  process_env h "IMAGE_INLINE_SIZE_LIMIT" = Some "20000"
  /\ "20000" <> ""
  /\ imageInlineSizeLimit h = parseInt "20000"
  /\ parseInt "20000" = Num 20000
  /\ imageInlineSizeLimit (sampleHost [] true false) = Num 10000.
Proof.
  cbv zeta.
  destruct (imageInlineSizeLimit_resolved
              (sampleHost [("IMAGE_INLINE_SIZE_LIMIT", "20000")] true false))
    as (_ & _ & Hparse & _).
  destruct (imageInlineSizeLimit_resolved (sampleHost [] true false))
    as (Habsent & _).
  split; [reflexivity|]. split; [discriminate|].
  split; [apply Hparse; [reflexivity|discriminate]|].
  split; [reflexivity|]. apply Habsent. reflexivity.
Defined.

(** ** The optimization stages (C1) *)

(** C1, as stated, fails in Development: the stages in effect are not
    empty, chunk splitting with the runtime chunk is still configured (and
    the [minimizer] array itself still holds its two entries, switched off
    by [minimize]). *)
Lemma development_optimization_not_empty :
  let o := optimization
             (webpack_config (sampleHost [] true false) "development") in
  optimizationStages o <> []
  /\ map stageKind (optimizationStages o) = [ChunkSplittingWithRuntimeChunk]
  /\ chunks (splitChunks o) = "all"
  /\ length (minimizer o) = 2%nat.
Proof.
  cbv zeta. repeat split. discriminate.
Qed.

(** C1, amended: for every host, in Production the stages in effect are
    exactly three, in the order script minification, stylesheet
    minification, chunk splitting paired with the runtime chunk; in
    Development minification is switched off and one stage remains, chunk
    splitting paired with the runtime chunk. *)
Theorem optimization_stages_by_mode (h : Host) :
  let prod := optimization (webpack_config h "production") in
  let dev := optimization (webpack_config h "development") in
  minimize prod = true
  /\ length (optimizationStages prod) = 3%nat
  /\ map stageKind (optimizationStages prod) =
       [ScriptMinification; StylesheetMinification;
        ChunkSplittingWithRuntimeChunk]
  /\ minimize dev = false
  /\ map stageKind (optimizationStages dev) =
       [ChunkSplittingWithRuntimeChunk]
  /\ splitChunks dev = splitChunks prod
  /\ (forall n, runtimeChunk_name (runtimeChunk dev) n = "runtime-" ++ n)
  /\ (forall n, runtimeChunk_name (runtimeChunk prod) n = "runtime-" ++ n).
Proof.
  cbv zeta. repeat split.
Qed.

(** ** The style chain (C3, C4, C9) *)

(** C3, as stated, fails: the Development chain without preprocessor has
    3 steps, not 4. *)
Lemma development_chain_length_not_4 :
  length (getStyleLoaders (sampleHost [] true false) "development"
            {| importLoaders := 1; sourceMap := false; modules := None |}
            None)
  <> 4%nat.
Proof. discriminate. Qed.

(** C3, amended: in Development, with options
    [{importLoaders: 1, sourceMap: false}] and no preprocessor, the chain
    has exactly 3 steps: the style-injection step first, the CSS resolution
    step carrying the options, and the vendor-prefix (postcss) step last. *)
Theorem development_chain_without_preprocessor (h : Host) :
  let cssOptions :=
    {| importLoaders := 1; sourceMap := false; modules := None |} in
  let chain := getStyleLoaders h "development" cssOptions None in
  length chain = 3%nat
  /\ hd_error chain = Some (UseString (resolved h "style-loader"))
  /\ nth_error chain 1 =
       Some (UseObject (resolved h "css-loader")
               (CssLoaderOptions cssOptions))
  /\ (exists opts,
        last chain (UseString "") =
          UseObject (resolved h "postcss-loader") opts
        /\ sourceMapOf (UseObject (resolved h "postcss-loader") opts)
           = Some true).
Proof.
  cbv zeta. repeat split.
  eexists. split; reflexivity.
Qed.

(** C4, as stated, fails: the Production chain with a preprocessor has 5
    steps, not 6. *)
Lemma production_sass_chain_length_not_6 :
  length (getStyleLoaders (sampleHost [] true false) "production"
            {| importLoaders := 3; sourceMap := true; modules := None |}
            (Some "sass"))
  <> 6%nat.
Proof. discriminate. Qed.

(** C4, amended: in Production, with options
    [{importLoaders: 3, sourceMap: true}] and a preprocessor (the rules
    pass ["sass-loader"]), the chain has exactly 5 steps: the CSS-extraction
    step first, the CSS resolution step, the vendor-prefix step, and last
    the URL-rewriting step followed by the preprocessor step. *)
Theorem production_chain_with_preprocessor (h : Host) (p : string) :
  p <> "" ->
  let cssOptions :=
    {| importLoaders := 3; sourceMap := true; modules := None |} in
  let chain := getStyleLoaders h "production" cssOptions (Some p) in
  length chain = 5%nat
  /\ (exists opts,
        hd_error chain = Some (UseObject (MiniCssExtractPlugin_loader h)
                                 (MiniCssExtractOptions opts)))
  /\ map loaderOf chain =
       [ MiniCssExtractPlugin_loader h;
         resolved h "css-loader";
         resolved h "postcss-loader";
         resolved h "resolve-url-loader";
         resolved h p ]
  /\ skipn 3 chain =
       [ UseObject (resolved h "resolve-url-loader")
           (ResolveUrlOptions (shouldUseSourceMap h) (appSrc (paths h)));
         UseObject (resolved h p) (PreProcessorOptions true) ].
Proof.
  intros Hp. cbv zeta. unfold getStyleLoaders, truthy.
  apply String.eqb_neq in Hp. rewrite Hp.
  repeat split. eexists. reflexivity.
Qed.

Lemma production_chain_with_preprocessor_witness :
  "sass-loader" <> ""
  /\ length (getStyleLoaders (sampleHost [] true false) "production"
               {| importLoaders := 3; sourceMap := true; modules := None |}
               (Some "sass-loader")) = 5%nat.
Proof.
  split; [discriminate|].
  apply (production_chain_with_preprocessor
           (sampleHost [] true false) "sass-loader").
  discriminate.
Defined.

(** C9, as stated, fails: in Production with [GENERATE_SOURCEMAP=false]
    the URL-rewriting step has its source-map option off. *)
Lemma resolve_url_source_map_not_forced :
  let h := sampleHost [("GENERATE_SOURCEMAP", "false")] true false in
  let chain := getStyleLoaders h "production"
                 {| importLoaders := 3; sourceMap := false;
                    modules := None |} (Some "sass-loader") in
  exists u, nth_error chain 3 = Some u
            /\ loaderOf u = resolved h "resolve-url-loader"
            /\ sourceMapOf u = Some false.
Proof.
  cbv zeta. eexists. repeat split.
Qed.

(** C9, amended: whenever a (non-empty) preprocessor identifier is given,
    the chain ends with the URL-rewriting step rooted at the source tree
    followed by the named preprocessor step.  The preprocessor step has its
    source-map option on in every mode; the URL-rewriting step has it on in
    Development and equal to the source-map flag in Production. *)
Theorem chain_ends_with_preprocessor_steps (h : Host) (webpackEnv : string)
  (cssOptions : CssOptions) (p : string) :
  p <> "" ->
  exists front urlStep preStep,
    getStyleLoaders h webpackEnv cssOptions (Some p) =
      (front ++ [urlStep; preStep])%list
    /\ loaderOf urlStep = resolved h "resolve-url-loader"
    /\ rootOf urlStep = Some (appSrc (paths h))
    /\ loaderOf preStep = resolved h p
    /\ sourceMapOf preStep = Some true
    /\ (webpackEnv = "development" -> sourceMapOf urlStep = Some true)
    /\ (webpackEnv = "production" ->
        sourceMapOf urlStep = Some (shouldUseSourceMap h)).
Proof.
  intros Hp. unfold getStyleLoaders, truthy.
  apply String.eqb_neq in Hp. rewrite Hp. cbn [negb].
  eexists. eexists. eexists.
  split; [reflexivity|].
  repeat split.
  - intros ->. reflexivity.
  - intros ->. reflexivity.
Qed.

Lemma chain_ends_with_preprocessor_steps_witness :
  "sass-loader" <> ""
  /\ exists front urlStep preStep,
       getStyleLoaders (sampleHost [] true false) "development"
         {| importLoaders := 3; sourceMap := true; modules := None |}
         (Some "sass-loader") = (front ++ [urlStep; preStep])%list
       /\ sourceMapOf preStep = Some true.
Proof.
  split; [discriminate|].
  destruct (chain_ends_with_preprocessor_steps
              (sampleHost [] true false) "development"
              {| importLoaders := 3; sourceMap := true; modules := None |}
              "sass-loader") as (front & u & v & Heq & _ & _ & _ & Hsm & _).
  - discriminate.
  - exists front, u, v. split; assumption.
Defined.

(** ** The entry points (C10) *)

(** C10: the entry is the two-element array of the dev-server client entry
    followed by the application index exactly when the mode is Development
    and fast refresh is off; in every other configuration it is the single
    application index path. *)
Theorem entry_by_mode_and_fast_refresh (h : Host) (webpackEnv : string) :
  let e := entry (webpack_config h webpackEnv) in
  (e = EntryArray [webpackDevClientEntry h; appIndexJs (paths h)] <->
   webpackEnv = "development" /\ env_raw_FAST_REFRESH h = false)
  /\ (~ (webpackEnv = "development" /\ env_raw_FAST_REFRESH h = false) ->
      e = EntryPath (appIndexJs (paths h))).
Proof.
  cbv zeta. cbn [entry webpack_config]. unfold entry_, shouldUseReactRefresh.
  destruct (isEnvDevelopment webpackEnv) eqn:Hdev;
    destruct (env_raw_FAST_REFRESH h) eqn:Hfr; cbn [andb negb].
  - split; [split|reflexivity].
    + discriminate.
    + intros [_ [=]].
  - apply isEnvDevelopment_iff in Hdev. split; [split|].
    + intros _. split; [assumption|reflexivity].
    + reflexivity.
    + intros Hn. exfalso. apply Hn. split; [assumption|reflexivity].
  - split; [split|reflexivity].
    + discriminate.
    + intros [_ [=]].
  - split; [split|reflexivity].
    + discriminate.
    + intros [Hd _]. apply isEnvDevelopment_iff in Hd. congruence.
Qed.

Lemma entry_by_mode_and_fast_refresh_witness :
  let h := sampleHost [] false false in
  "development" = "development" /\ env_raw_FAST_REFRESH h = false
  /\ entry (webpack_config h "development") =
       EntryArray [webpackDevClientEntry h; appIndexJs (paths h)]
  /\ entry (webpack_config h "production") = EntryPath (appIndexJs (paths h)).
Proof.
  cbv zeta. split; [reflexivity|]. split; [reflexivity|]. split.
  - apply (proj1 (entry_by_mode_and_fast_refresh
                    (sampleHost [] false false) "development")).
    split; reflexivity.
  - apply (proj2 (entry_by_mode_and_fast_refresh
                    (sampleHost [] false false) "production")).
    intros [Hmode _]. discriminate Hmode.
Defined.

(** ** The plugin list (C5, C6, C8) *)

(** The classes of the entries of the literal [plugins] array that survive
    the filter, as a function of the six switches the entries test. *)
Lemma plugin_classes (h : Host) (webpackEnv : string) :
  map classOf (plugins (webpack_config h webpackEnv)) =
  filter_Boolean
    [ Some HtmlEmission;
      guard (isEnvProduction webpackEnv && shouldInlineRuntimeChunk h)
        RuntimeChunkInlining;
      Some EnvInterpolation;
      Some ModuleNotFoundDiagnostics;
      Some GlobalDefine;
      guard (isEnvDevelopment webpackEnv) HotModuleReplacement;
      guard (isEnvDevelopment webpackEnv && env_raw_FAST_REFRESH h)
        FastRefresh;
      guard (isEnvDevelopment webpackEnv) CaseSensitivityGuard;
      guard (isEnvDevelopment webpackEnv) MissingModuleWatcher;
      guard (isEnvProduction webpackEnv) CssExtraction;
      Some AssetManifest;
      Some LocaleStripping;
      guard (isEnvProduction webpackEnv
             && fs_existsSync h (swSrc (paths h)))
        ServiceWorkerInjection;
      guard (useTypeScript h) TypeChecking;
      Some LintOnBuild ].
Proof.
  cbn [plugins webpack_config].
  unfold plugins_, plugins_literal, shouldUseReactRefresh.
  destruct (isEnvProduction webpackEnv), (isEnvDevelopment webpackEnv),
    (shouldInlineRuntimeChunk h), (env_raw_FAST_REFRESH h),
    (fs_existsSync h (swSrc (paths h))), (useTypeScript h);
    reflexivity.
Qed.

(** Membership of a class in the literal array: go through the entries,
    drop those of another class, and read the switch of the one that is
    left from its guard. *)
Ltac entry_of_class Hin :=
  repeat (destruct Hin as [Hin|Hin];
          [try discriminate Hin;
           let Hb := fresh "Hb" in
           let Hc := fresh "Hc" in
           apply guard_Some in Hin; destruct Hin as [Hb Hc];
           try discriminate Hc;
           apply andb_true_iff in Hb; tauto|]);
  try contradiction.

(** C5, as stated, fails: with fast refresh and TypeScript in Development
    the last enabled plugin is the lint plugin, not the type checker. *)
Lemma type_checking_not_last :
  let ps := plugins (webpack_config (sampleHost [] true true)
                       "development") in
  env_raw_FAST_REFRESH (sampleHost [] true true) = true
  /\ useTypeScript (sampleHost [] true true) = true
  /\ last (map classOf ps) HtmlEmission = LintOnBuild
  /\ last (map classOf ps) HtmlEmission <> TypeChecking.
Proof.
  cbv zeta. repeat split. discriminate.
Qed.

(** C5, amended: in Development with fast refresh and TypeScript, the
    enabled plugins are twelve; hot-module-replacement comes immediately
    before fast-refresh, and the type checker is the last but one, followed
    only by the lint plugin, which is last. *)
Theorem development_plugins_order (h : Host) :
  env_raw_FAST_REFRESH h = true ->
  useTypeScript h = true ->
  let cs := map classOf (plugins (webpack_config h "development")) in
  cs = [ HtmlEmission; EnvInterpolation; ModuleNotFoundDiagnostics;
         GlobalDefine; HotModuleReplacement; FastRefresh;
         CaseSensitivityGuard; MissingModuleWatcher; AssetManifest;
         LocaleStripping; TypeChecking; LintOnBuild ]
  /\ nth_error cs 4 = Some HotModuleReplacement
  /\ nth_error cs 5 = Some FastRefresh
  /\ nth_error cs (length cs - 2) = Some TypeChecking
  /\ last cs HtmlEmission = LintOnBuild.
Proof.
  intros Hfr Hts. cbv zeta. rewrite plugin_classes.
  rewrite Hfr, Hts. repeat split.
Qed.

Lemma development_plugins_order_witness :
  let h := sampleHost [] true true in
  env_raw_FAST_REFRESH h = true
  /\ useTypeScript h = true
  /\ last (map classOf (plugins (webpack_config h "development")))
       HtmlEmission = LintOnBuild.
Proof.
  cbv zeta. split; [reflexivity|]. split; [reflexivity|].
  apply (development_plugins_order (sampleHost [] true true));
    reflexivity.
Defined.

(** C6: in Production (with profiling off, and also with it on: the
    profiling switch reaches no entry of the array) the enabled plugins
    never contain hot-module-replacement, fast-refresh, the case-sensitivity
    guard or the missing-module watcher, and always contain CSS extraction
    and asset-manifest generation. *)
Theorem production_plugins (h : Host) :
  let cs := map classOf (plugins (webpack_config h "production")) in
  ~ In HotModuleReplacement cs
  /\ ~ In FastRefresh cs
  /\ ~ In CaseSensitivityGuard cs
  /\ ~ In MissingModuleWatcher cs
  /\ In CssExtraction cs
  /\ In AssetManifest cs.
Proof.
  cbv zeta. rewrite plugin_classes.
  change (isEnvProduction "production") with true.
  change (isEnvDevelopment "production") with false.
  destruct (shouldInlineRuntimeChunk h),
    (fs_existsSync h (swSrc (paths h))), (useTypeScript h);
    cbn; intuition discriminate.
Qed.

(** C8: whatever the other flags, the runtime-chunk-inlining plugin is
    enabled only when the mode is Production, and the fast-refresh plugin
    only when the mode is Development. *)
Theorem mode_bound_plugins (h : Host) (webpackEnv : string) :
  let cs := map classOf (plugins (webpack_config h webpackEnv)) in
  (In RuntimeChunkInlining cs -> webpackEnv = "production")
  /\ (In FastRefresh cs -> webpackEnv = "development").
Proof.
  cbv zeta. rewrite plugin_classes.
  split; intros Hin; apply In_filter_Boolean in Hin; cbn [In] in Hin.
  - apply isEnvProduction_iff. entry_of_class Hin.
  - apply isEnvDevelopment_iff. entry_of_class Hin.
Qed.

Lemma mode_bound_plugins_witness :
  let cs := map classOf
              (plugins (webpack_config (sampleHost [] true false)
                          "production")) in
  In RuntimeChunkInlining cs /\ "production" = "production".
Proof.
  cbv zeta.
  assert (Hin : In RuntimeChunkInlining
                  (map classOf
                     (plugins (webpack_config (sampleHost [] true false)
                                 "production"))))
    by (cbn; tauto).
  split; [exact Hin|].
  exact (proj1 (mode_bound_plugins (sampleHost [] true false) "production")
           Hin).
Defined.

(** ** Rule selection (C2) *)

(** *** First match wins, for any rule list *)

Lemma oneOf_index_Some (rules : list Rule) (resource : string) (i : nat) :
  oneOf_index rules resource = Some i ->
  (exists r, nth_error rules i = Some r /\ rule_matches r resource = true)
  /\ (forall j r', (j < i)%nat -> nth_error rules j = Some r' ->
        rule_matches r' resource = false).
Proof.
  revert i. induction rules as [|r rules IH]; intros i; simpl.
  - discriminate.
  - destruct (rule_matches r resource) eqn:Hr.
    + intros [= <-]. split.
      * exists r. auto.
      * intros j r' Hlt. lia.
    + destruct (oneOf_index rules resource) as [k|]; simpl; [|discriminate].
      intros [= <-]. destruct (IH k eq_refl) as [Hex Hbefore]. split.
      * exact Hex.
      * intros [|j] r' Hlt; simpl.
        -- intros [= <-]. exact Hr.
        -- apply Hbefore. lia.
Qed.

Lemma oneOf_index_None (rules : list Rule) (resource : string) :
  oneOf_index rules resource = None <->
  existsb (fun r => rule_matches r resource) rules = false.
Proof.
  induction rules as [|r rules IH]; simpl.
  - tauto.
  - destruct (rule_matches r resource); simpl.
    + split; discriminate.
    + rewrite <- IH. destruct (oneOf_index rules resource); simpl;
        split; congruence.
Qed.

Lemma oneOf_index_last (earlier : list Rule) (fallback : Rule)
  (resource : string) :
  oneOf_index (earlier ++ [fallback]) resource = Some (length earlier) <->
  existsb (fun r => rule_matches r resource) earlier = false
  /\ rule_matches fallback resource = true.
Proof.
  induction earlier as [|r earlier IH]; simpl.
  - destruct (rule_matches fallback resource); simpl; split;
      try tauto; try discriminate. intros [_ [=]].
  - destruct (rule_matches r resource); simpl.
    + split; [discriminate|]. intros [[=] _].
    + rewrite <- IH.
      destruct (oneOf_index (earlier ++ [fallback]) resource); simpl;
        split; congruence.
Qed.

(** *** The last character decides between extensions *)

Lemma endsWith_lastChar (suf s : string) :
  suf <> "" -> endsWith suf s = true -> lastChar s = lastChar suf.
Proof.
  intros Hsuf. induction s as [|c s IH].
  - destruct suf; [contradiction|discriminate].
  - cbn [endsWith]. intros H%orb_true_iff. destruct H as [H|H].
    + apply String.eqb_eq in H. now rewrite H.
    + specialize (IH H). destruct s as [|c' s'].
      * destruct suf; [contradiction|discriminate].
      * exact IH.
Qed.

Lemma endsWith_other_last (suf s : string) (c : ascii) :
  suf <> "" -> lastChar s = Some c -> lastChar suf <> Some c ->
  endsWith suf s = false.
Proof.
  intros Hsuf Hs Hne. destruct (endsWith suf s) eqn:He; [|reflexivity].
  apply endsWith_lastChar in He; [|assumption]. congruence.
Qed.

(** No rule before the fallback applies to a path whose last character is
    not one of the last characters of their extensions. *)
Lemma earlier_rules_by_lastChar (h : Host) (webpackEnv resource : string)
  (c : ascii) :
  lastChar resource = Some c ->
  c <> "f"%char -> c <> "p"%char -> c <> "g"%char -> c <> "s"%char ->
  c <> "x"%char ->
  existsb (fun r => rule_matches r resource)
    (firstn 8 (oneOf h webpackEnv)) = false.
Proof.
  intros Hlast Hf Hp Hg Hs Hx.
  assert (Hno : forall suf, suf <> "" ->
                  lastChar suf <> Some c -> endsWith suf resource = false)
    by (intros suf Hsuf Hne; exact (endsWith_other_last _ _ _ Hsuf Hlast Hne)).
  unfold oneOf. cbn [firstn existsb].
  unfold rule_matches, avifRule, imageRule, appScriptRule,
    dependencyScriptRule, cssRule, cssModuleRule, sassRule, sassModuleRule.
  cbn [test include exclude opt_cond cond_matches existsb regexp_test
       avifRegex bmpRegex gifRegex jpegRegex pngRegex appScriptRegex
       scriptRegex cssRegex cssModuleRegex sassRegex sassModuleRegex
       suffixRegExp anyRegExp].
  repeat (rewrite Hno by (first [discriminate | simpl; congruence])).
  reflexivity.
Qed.

(** C2, as stated, fails: no rule at all is selected for an [.html] path
    (the fallback excludes it and no other rule tests for it), so the list
    does not select exactly one rule for every path.  And it is only the
    order that keeps the fallback from stylesheets: its own condition holds
    of a [.css] path that the stylesheet rule matches. *)
Lemma html_selects_no_rule :
  let h := sampleHost [] true false in
  let rules := module_rules_oneOf (webpack_config h "production") in
  oneOf_index rules "/app/public/index.html" = None
  /\ oneOf_select rules "/app/public/index.html" = None
  /\ ~ (exists r, oneOf_select rules "/app/public/index.html" = Some r)
  /\ rule_matches (cssRule h "production") "/app/src/index.css" = true
  /\ rule_matches (fileLoaderRule h) "/app/src/index.css"
     = true.
Proof.
  cbv zeta. repeat split.
  intros [r Hr]. vm_compute in Hr. discriminate Hr.
Qed.

(** C2, amended: for every file path the rule list selects at most one
    rule, the first that applies (first match wins).  The fallback is the
    last rule and has no [test]; it excludes exactly the script
    (js/mjs/jsx/ts/tsx), html and json extensions.  It is selected exactly
    when none of the eight earlier rules applies and the path has none of
    these extensions, so it never takes a file an earlier rule matches.  No
    rule is selected exactly when none of the eight applies and the path
    has one of the excluded extensions, which is the case of every [.html]
    and [.json] path. *)
Theorem oneOf_first_match_wins (h : Host) (webpackEnv resource : string) :
  let rules := module_rules_oneOf (webpack_config h webpackEnv) in
  let fallback := fileLoaderRule h in
  let earlier := firstn 8 rules in
  let excluded := regexp_test appScriptRegex resource
                  || endsWith ".html" resource
                  || endsWith ".json" resource in
  (rules = earlier ++ [fallback])%list
  /\ length earlier = 8%nat
  /\ test fallback = None
  /\ rule_matches fallback resource = negb excluded
  /\ (forall i, oneOf_index rules resource = Some i ->
        (exists r, nth_error rules i = Some r
                   /\ oneOf_select rules resource = Some r
                   /\ rule_matches r resource = true)
        /\ (forall j r', (j < i)%nat -> nth_error rules j = Some r' ->
              rule_matches r' resource = false))
  /\ (oneOf_index rules resource = Some 8%nat <->
      existsb (fun r => rule_matches r resource) earlier = false
      /\ excluded = false)
  /\ (oneOf_index rules resource = None <->
      existsb (fun r => rule_matches r resource) earlier = false
      /\ excluded = true)
  /\ (endsWith ".html" resource = true \/ endsWith ".json" resource = true ->
      oneOf_index rules resource = None).
Proof.
  cbv zeta. cbn [module_rules_oneOf webpack_config].
  assert (Hsplit : oneOf h webpackEnv =
                   (firstn 8 (oneOf h webpackEnv)
                    ++ [fileLoaderRule h])%list) by reflexivity.
  assert (Hfb : rule_matches (fileLoaderRule h) resource =
                negb (regexp_test appScriptRegex resource
                      || endsWith ".html" resource
                      || endsWith ".json" resource)).
  { unfold rule_matches, fileLoaderRule.
    cbn [test include exclude opt_cond cond_matches existsb andb].
    cbn [regexp_test htmlRegex jsonRegex suffixRegExp].
    now rewrite orb_false_r, orb_assoc. }
  assert (Hnone : oneOf_index (oneOf h webpackEnv) resource = None <->
            existsb (fun r => rule_matches r resource)
              (firstn 8 (oneOf h webpackEnv)) = false
            /\ regexp_test appScriptRegex resource
               || endsWith ".html" resource
               || endsWith ".json" resource = true).
  { rewrite oneOf_index_None. rewrite Hsplit at 1.
    rewrite existsb_app. cbn [existsb]. rewrite orb_false_r, Hfb.
    rewrite orb_false_iff, negb_false_iff. tauto. }
  split; [exact Hsplit|]. split; [reflexivity|]. split; [reflexivity|].
  split; [exact Hfb|]. split; [|split; [|split]].
  - intros i Hi. destruct (oneOf_index_Some _ _ _ Hi) as [[r [Hn Hm]] Hb].
    split; [|exact Hb]. exists r. unfold oneOf_select. rewrite Hi. auto.
  - rewrite Hsplit at 1.
    change 8%nat with (length (firstn 8 (oneOf h webpackEnv))) at 1.
    rewrite oneOf_index_last, Hfb, negb_true_iff. tauto.
  - exact Hnone.
  - intros Hext. apply Hnone.
    assert (Hlast : lastChar resource = Some "l"%char
                    \/ lastChar resource = Some "n"%char).
    { destruct Hext as [He|He];
        apply endsWith_lastChar in He; try discriminate; auto. }
    split.
    + destruct Hlast as [Hl|Hl];
        apply (earlier_rules_by_lastChar _ _ _ _ Hl); discriminate.
    + destruct Hext as [-> | ->]; [rewrite orb_true_r; reflexivity|].
      apply orb_true_r.
Qed.

Lemma oneOf_first_match_wins_witness :
  let rules := module_rules_oneOf
                 (webpack_config (sampleHost [] true false) "production") in
  oneOf_index rules "/app/src/logo.svg" = Some 8%nat
  /\ existsb (fun r => rule_matches r "/app/src/logo.svg") (firstn 8 rules)
     = false.
Proof.
  cbv zeta. split; [reflexivity|].
  destruct (oneOf_first_match_wins (sampleHost [] true false) "production"
              "/app/src/logo.svg") as (_ & _ & _ & _ & _ & Hlast & _).
  apply Hlast. reflexivity.
Defined.

(** * Further properties of the configuration *)

(** ** Rule selection by extension *)

(** Two suffixes of one string: one is a suffix of the other. *)
Lemma endsWith_comparable (a b s : string) :
  endsWith a s = true -> endsWith b s = true ->
  endsWith a b = true \/ endsWith b a = true.
Proof.
  induction s as [|c s IH]; cbn [endsWith].
  - rewrite !orb_false_r. intros Ha%String.eqb_eq Hb%String.eqb_eq.
    subst. left. reflexivity.
  - intros Ha%orb_true_iff Hb%orb_true_iff.
    destruct Ha as [Ha|Ha].
    + apply String.eqb_eq in Ha. subst a. right.
      cbn [endsWith]. apply orb_true_iff. destruct Hb as [Hb|Hb].
      * left. exact Hb.
      * right. exact Hb.
    + destruct Hb as [Hb|Hb].
      * apply String.eqb_eq in Hb. subst b. left.
        cbn [endsWith]. apply orb_true_iff. right. exact Ha.
      * apply IH; assumption.
Qed.

(** A path with extension [a] does not have an extension [b] that is
    neither a suffix of [a] nor has [a] as a suffix. *)
Lemma endsWith_clash (a b s : string) :
  endsWith a s = true -> endsWith a b = false -> endsWith b a = false ->
  endsWith b s = false.
Proof.
  intros Ha Hab Hba. destruct (endsWith b s) eqn:Hb; [|reflexivity].
  destruct (endsWith_comparable _ _ _ Ha Hb); congruence.
Qed.

Lemma endsWith_trans (a b s : string) :
  endsWith a b = true -> endsWith b s = true -> endsWith a s = true.
Proof.
  intros Hab. induction s as [|c s IH]; cbn [endsWith].
  - rewrite !orb_false_r. intros Hb%String.eqb_eq. subst b.
    simpl in Hab. rewrite orb_false_r in Hab. exact Hab.
  - intros Hb%orb_true_iff. destruct Hb as [Hb|Hb].
    + apply String.eqb_eq in Hb. subst b. exact Hab.
    + apply orb_true_iff. right. apply IH. exact Hb.
Qed.

(** The selection as a decision table over the tests of the rules. *)
Lemma oneOf_index_table (h : Host) (webpackEnv resource : string) :
  oneOf_index (oneOf h webpackEnv) resource =
  if endsWith ".avif" resource then Some 0%nat
  else if endsWith ".bmp" resource || endsWith ".gif" resource
          || (endsWith ".jpg" resource || endsWith ".jpeg" resource)
          || endsWith ".png" resource
       then Some 1%nat
  else if regexp_test appScriptRegex resource
          && startsWith (appSrc (paths h)) resource
       then Some 2%nat
  else if regexp_test scriptRegex resource
          && negb (regexp_test babelRuntimeRegex resource)
       then Some 3%nat
  else if endsWith ".css" resource
          && negb (endsWith ".module.css" resource)
       then Some 4%nat
  else if endsWith ".module.css" resource then Some 5%nat
  else if regexp_test sassRegex resource
          && negb (regexp_test sassModuleRegex resource)
       then Some 6%nat
  else if regexp_test sassModuleRegex resource then Some 7%nat
  else if negb (regexp_test appScriptRegex resource
                || endsWith ".html" resource || endsWith ".json" resource)
       then Some 8%nat
  else None.
Proof.
  unfold oneOf. cbn [oneOf_index].
  unfold rule_matches, avifRule, imageRule, appScriptRule,
    dependencyScriptRule, cssRule, cssModuleRule, sassRule, sassModuleRule,
    fileLoaderRule.
  cbn [test include exclude opt_cond cond_matches existsb].
  cbn [regexp_test avifRegex bmpRegex gifRegex pngRegex cssRegex
       cssModuleRegex htmlRegex jsonRegex suffixRegExp].
  change (regexp_test jpegRegex resource)
    with (endsWith ".jpg" resource || (endsWith ".jpeg" resource || false)).
  cbn [negb andb]. rewrite ?orb_false_r, ?andb_true_r, ?orb_assoc.
  repeat match goal with
         | |- context [if ?b then _ else _] => destruct b
         end; reflexivity.
Qed.

(** With [H : endsWith a s = true], every test of an extension that cannot
    end the same path as [a] is rewritten to [false]. *)
Ltac clash_all H :=
  repeat match goal with
         | |- context [endsWith ?b ?s] =>
             rewrite (endsWith_clash _ b s H eq_refl eq_refl)
         end.

Ltac unfold_tests :=
  cbn [regexp_test appScriptRegex scriptRegex sassRegex sassModuleRegex
       anyRegExp existsb].

(** From a disjunction of extension tests to the extension that holds. *)
Lemma existsb_endsWith (exts : list string) (s : string) :
  existsb (fun e => endsWith e s) exts = true ->
  exists e, In e exts /\ endsWith e s = true.
Proof. intros H. apply existsb_exists in H. exact H. Qed.

Lemma index_avif (h : Host) (webpackEnv resource : string) :
  endsWith ".avif" resource = true ->
  oneOf_index (oneOf h webpackEnv) resource = Some 0%nat.
Proof. intros H. rewrite oneOf_index_table, H. reflexivity. Qed.

Lemma index_image (h : Host) (webpackEnv resource : string) :
  existsb (fun e => endsWith e resource)
    [".bmp"; ".gif"; ".jpg"; ".jpeg"; ".png"] = true ->
  oneOf_index (oneOf h webpackEnv) resource = Some 1%nat.
Proof.
  intros H. rewrite oneOf_index_table.
  assert (Havif : endsWith ".avif" resource = false).
  { apply existsb_endsWith in H. destruct H as [e [Hin He]].
    cbn [In] in Hin.
    repeat (destruct Hin as [<-|Hin]; [now clash_all He|]).
    contradiction. }
  rewrite Havif. cbn [existsb] in H. rewrite orb_false_r in H.
  rewrite ?orb_assoc in *. rewrite H. reflexivity.
Qed.

Lemma index_script (h : Host) (webpackEnv resource : string) :
  regexp_test appScriptRegex resource = true ->
  oneOf_index (oneOf h webpackEnv) resource =
  if startsWith (appSrc (paths h)) resource then Some 2%nat
  else if regexp_test scriptRegex resource
          && negb (regexp_test babelRuntimeRegex resource)
       then Some 3%nat
  else None.
Proof.
  intros H. rewrite oneOf_index_table. rewrite H. cbn [andb orb negb].
  assert (Hother :
            existsb (fun e => endsWith e resource)
              [".avif"; ".bmp"; ".gif"; ".jpg"; ".jpeg"; ".png"; ".css";
               ".module.css"; ".scss"; ".sass"; ".module.scss";
               ".module.sass"] = false).
  { cbn [regexp_test appScriptRegex anyRegExp] in H.
    apply existsb_exists in H. destruct H as [t [Hin Ht]].
    cbn [In] in Hin. cbn [existsb].
    repeat (destruct Hin as [<-|Hin]; [now clash_all Ht|]).
    contradiction. }
  cbn [existsb] in Hother. rewrite orb_false_r in Hother.
  repeat (apply orb_false_iff in Hother;
          let H1 := fresh "Hno" in destruct Hother as [H1 Hother]).
  cbn [regexp_test sassRegex sassModuleRegex anyRegExp existsb].
  repeat match goal with
         | Hno : endsWith _ resource = false |- _ => rewrite Hno; clear Hno
         end.
  cbn [andb orb negb].
  destruct (startsWith (appSrc (paths h)) resource); [reflexivity|].
  destruct (regexp_test scriptRegex resource
            && negb (regexp_test babelRuntimeRegex resource)); reflexivity.
Qed.

Lemma index_css (h : Host) (webpackEnv resource : string) :
  endsWith ".css" resource = true ->
  oneOf_index (oneOf h webpackEnv) resource =
  Some (if endsWith ".module.css" resource then 5%nat else 4%nat).
Proof.
  intros H. rewrite oneOf_index_table. unfold_tests.
  clash_all H. rewrite H. cbn [orb andb negb].
  destruct (endsWith ".module.css" resource); reflexivity.
Qed.

Lemma index_sass (h : Host) (webpackEnv resource : string) :
  regexp_test sassRegex resource = true ->
  oneOf_index (oneOf h webpackEnv) resource =
  Some (if regexp_test sassModuleRegex resource then 7%nat else 6%nat).
Proof.
  intros H. rewrite oneOf_index_table.
  assert (Hother :
            existsb (fun e => endsWith e resource)
              [".avif"; ".bmp"; ".gif"; ".jpg"; ".jpeg"; ".png"; ".js";
               ".mjs"; ".jsx"; ".ts"; ".tsx"; ".css"; ".module.css"]
            = false).
  { cbn [regexp_test sassRegex anyRegExp] in H.
    apply existsb_exists in H. destruct H as [t [Hin Ht]].
    cbn [In] in Hin. cbn [existsb].
    repeat (destruct Hin as [<-|Hin]; [now clash_all Ht|]).
    contradiction. }
  cbn [existsb] in Hother. rewrite orb_false_r in Hother.
  repeat (apply orb_false_iff in Hother;
          let H1 := fresh "Hno" in destruct Hother as [H1 Hother]).
  rewrite H.
  cbn [regexp_test appScriptRegex scriptRegex anyRegExp existsb].
  repeat match goal with
         | Hno : endsWith _ resource = false |- _ => rewrite Hno; clear Hno
         end.
  cbn [andb orb negb].
  destruct (regexp_test sassModuleRegex resource); reflexivity.
Qed.

Lemma index_html_json (h : Host) (webpackEnv resource : string) :
  endsWith ".html" resource || endsWith ".json" resource = true ->
  oneOf_index (oneOf h webpackEnv) resource = None.
Proof.
  intros H. rewrite oneOf_index_table. unfold_tests.
  apply orb_true_iff in H. destruct H as [H|H]; clash_all H; rewrite H;
    cbn [orb andb negb]; rewrite ?orb_true_r; reflexivity.
Qed.

(** The extensions the rules test for. *)
Lemma index_unknown_extension (h : Host) (webpackEnv resource : string) :
  existsb (fun e => endsWith e resource)
    [".avif"; ".bmp"; ".gif"; ".jpg"; ".jpeg"; ".png"; ".js"; ".mjs";
     ".jsx"; ".ts"; ".tsx"; ".css"; ".scss"; ".sass"; ".html"; ".json"]
  = false ->
  oneOf_index (oneOf h webpackEnv) resource = Some 8%nat.
Proof.
  intros H. rewrite oneOf_index_table. unfold_tests.
  cbn [existsb] in H. rewrite orb_false_r in H.
  repeat (apply orb_false_iff in H;
          let H1 := fresh "Hno" in destruct H as [H1 H]).
  assert (Hm1 : endsWith ".module.css" resource = false).
  { destruct (endsWith ".module.css" resource) eqn:E; [|reflexivity].
    apply (endsWith_trans ".css") in E; [congruence|reflexivity]. }
  assert (Hm2 : endsWith ".module.scss" resource = false).
  { destruct (endsWith ".module.scss" resource) eqn:E; [|reflexivity].
    apply (endsWith_trans ".scss") in E; [congruence|reflexivity]. }
  assert (Hm3 : endsWith ".module.sass" resource = false).
  { destruct (endsWith ".module.sass" resource) eqn:E; [|reflexivity].
    apply (endsWith_trans ".sass") in E; [congruence|reflexivity]. }
  repeat match goal with
         | Hno : endsWith _ resource = false |- _ => rewrite Hno; clear Hno
         end.
  reflexivity.
Qed.

Lemma oneOf_select_index (rules : list Rule) (resource : string) (i : nat) :
  oneOf_index rules resource = Some i ->
  oneOf_select rules resource = nth_error rules i.
Proof. unfold oneOf_select. intros ->. reflexivity. Qed.

(** X1: every path ending in [.css] is handled by a stylesheet rule,
    whatever its directory: the CSS-module rule when it ends in
    [.module.css], the plain CSS rule otherwise. *)
Theorem css_paths_selection (h : Host) (webpackEnv resource : string) :
  endsWith ".css" resource = true ->
  oneOf_select (module_rules_oneOf (webpack_config h webpackEnv)) resource =
  Some (if endsWith ".module.css" resource
        then cssModuleRule h webpackEnv else cssRule h webpackEnv).
Proof.
  intros H. cbn [module_rules_oneOf webpack_config].
  rewrite (oneOf_select_index _ _ _ (index_css h webpackEnv resource H)).
  destruct (endsWith ".module.css" resource); reflexivity.
Qed.

Lemma css_paths_selection_witness :
  let h := sampleHost [] true false in
  endsWith ".css" "/app/node_modules/x/button.module.css" = true
  /\ oneOf_select (module_rules_oneOf (webpack_config h "production"))
       "/app/node_modules/x/button.module.css" =
     Some (cssModuleRule h "production").
Proof.
  cbv zeta. split; [reflexivity|].
  apply (css_paths_selection (sampleHost [] true false) "production"
           "/app/node_modules/x/button.module.css").
  reflexivity.
Defined.

(** X2: every path ending in [.scss] or [.sass] is handled by a SASS rule:
    the SASS-module rule when it ends in [.module.scss] or [.module.sass],
    the plain SASS rule otherwise. *)
Theorem sass_paths_selection (h : Host) (webpackEnv resource : string) :
  endsWith ".scss" resource || endsWith ".sass" resource = true ->
  oneOf_select (module_rules_oneOf (webpack_config h webpackEnv)) resource =
  Some (if endsWith ".module.scss" resource
           || endsWith ".module.sass" resource
        then sassModuleRule h webpackEnv else sassRule h webpackEnv).
Proof.
  intros H. cbn [module_rules_oneOf webpack_config].
  assert (Hs : regexp_test sassRegex resource = true).
  { unfold_tests. rewrite orb_false_r. exact H. }
  rewrite (oneOf_select_index _ _ _ (index_sass h webpackEnv resource Hs)).
  unfold_tests. rewrite orb_false_r.
  destruct (endsWith ".module.scss" resource
            || endsWith ".module.sass" resource); reflexivity.
Qed.

Lemma sass_paths_selection_witness :
  let h := sampleHost [] true false in
  endsWith ".scss" "/app/src/theme.scss"
  || endsWith ".sass" "/app/src/theme.scss" = true
  /\ oneOf_select (module_rules_oneOf (webpack_config h "development"))
       "/app/src/theme.scss" = Some (sassRule h "development").
Proof.
  cbv zeta. split; [reflexivity|].
  apply (sass_paths_selection (sampleHost [] true false) "development"
           "/app/src/theme.scss").
  reflexivity.
Defined.

(** X3: every path ending in [.avif] is handled by the AVIF rule, and
    every path ending in [.bmp], [.gif], [.jpg], [.jpeg] or [.png] by the
    image rule; both inline below the image size limit, and only the AVIF
    rule forces a mime type. *)
Theorem image_paths_selection (h : Host) (webpackEnv resource : string) :
  let rules := module_rules_oneOf (webpack_config h webpackEnv) in
  (endsWith ".avif" resource = true ->
   oneOf_select rules resource = Some (avifRule h))
  /\ (existsb (fun e => endsWith e resource)
        [".bmp"; ".gif"; ".jpg"; ".jpeg"; ".png"] = true ->
      oneOf_select rules resource = Some (imageRule h))
  /\ rule_use (avifRule h) =
       [ UseObject (resolved h "url-loader")
           (UrlLoaderOptions (imageInlineSizeLimit h) (Some "image/avif")
              mediaName) ]
  /\ rule_use (imageRule h) =
       [ UseObject (resolved h "url-loader")
           (UrlLoaderOptions (imageInlineSizeLimit h) None mediaName) ].
Proof.
  cbv zeta. cbn [module_rules_oneOf webpack_config]. repeat split.
  - intros H.
    rewrite (oneOf_select_index _ _ _ (index_avif h webpackEnv resource H)).
    reflexivity.
  - intros H.
    rewrite (oneOf_select_index _ _ _ (index_image h webpackEnv resource H)).
    reflexivity.
Qed.

Lemma image_paths_selection_witness :
  let h := sampleHost [] true false in
  existsb (fun e => endsWith e "/app/src/logo.jpeg")
    [".bmp"; ".gif"; ".jpg"; ".jpeg"; ".png"] = true
  /\ oneOf_select (module_rules_oneOf (webpack_config h "production"))
       "/app/src/logo.jpeg" = Some (imageRule h).
Proof.
  cbv zeta. split; [reflexivity|].
  destruct (image_paths_selection (sampleHost [] true false) "production"
              "/app/src/logo.jpeg") as (_ & Himg & _).
  apply Himg. reflexivity.
Defined.

(** X4: a path with a script extension (js, mjs, jsx, ts, tsx) is handled
    by the application rule when it lies under the source root; otherwise
    by the dependency rule when its extension is js or mjs and it is not
    inside the Babel runtime; otherwise by no rule. *)
Theorem script_paths_selection (h : Host) (webpackEnv resource : string) :
  existsb (fun e => endsWith e resource)
    [".js"; ".mjs"; ".jsx"; ".ts"; ".tsx"] = true ->
  oneOf_select (module_rules_oneOf (webpack_config h webpackEnv)) resource =
  if startsWith (appSrc (paths h)) resource
  then Some (appScriptRule h webpackEnv)
  else if (endsWith ".js" resource || endsWith ".mjs" resource)
          && negb (regexp_test babelRuntimeRegex resource)
       then Some (dependencyScriptRule h)
  else None.
Proof.
  intros H. cbn [module_rules_oneOf webpack_config].
  pose proof (index_script h webpackEnv resource H) as Hi.
  cbn [regexp_test scriptRegex anyRegExp existsb] in Hi.
  rewrite orb_false_r in Hi. unfold oneOf_select. rewrite Hi.
  destruct (startsWith (appSrc (paths h)) resource); [reflexivity|].
  destruct ((endsWith ".js" resource || endsWith ".mjs" resource)
            && negb (regexp_test babelRuntimeRegex resource)); reflexivity.
Qed.

Lemma script_paths_selection_witness :
  let h := sampleHost [] true false in
  existsb (fun e => endsWith e "/app/node_modules/lodash/map.js")
    [".js"; ".mjs"; ".jsx"; ".ts"; ".tsx"] = true
  /\ oneOf_select (module_rules_oneOf (webpack_config h "production"))
       "/app/node_modules/lodash/map.js" = Some (dependencyScriptRule h).
Proof.
  cbv zeta. split; [reflexivity|].
  apply (script_paths_selection (sampleHost [] true false) "production"
           "/app/node_modules/lodash/map.js").
  reflexivity.
Defined.



(** X6: the fallback (file-loader) rule is the one selected exactly for
    the paths that end in none of the sixteen extensions the list tests
    for. *)
Theorem fallback_iff_unknown_extension (h : Host)
  (webpackEnv resource : string) :
  oneOf_index (module_rules_oneOf (webpack_config h webpackEnv)) resource
  = Some 8%nat
  <->
  existsb (fun e => endsWith e resource)
    [".avif"; ".bmp"; ".gif"; ".jpg"; ".jpeg"; ".png"; ".js"; ".mjs";
     ".jsx"; ".ts"; ".tsx"; ".css"; ".scss"; ".sass"; ".html"; ".json"]
  = false.
Proof.
  cbn [module_rules_oneOf webpack_config]. split.
  - intros Hsel.
    destruct (existsb (fun e => endsWith e resource) _) eqn:Hext;
      [exfalso|reflexivity].
    apply existsb_endsWith in Hext. destruct Hext as [e [Hin He]].
    cbn [In] in Hin.
    destruct Hin as [<-|Hin].
    { rewrite (index_avif h webpackEnv resource He) in Hsel.
      discriminate. }
    assert (Himg : In e [".bmp"; ".gif"; ".jpg"; ".jpeg"; ".png"] ->
                   False).
    { intros Hi.
      rewrite (index_image h webpackEnv resource) in Hsel;
        [discriminate|].
      apply existsb_exists. exists e. auto. }
    assert (Hscr : In e [".js"; ".mjs"; ".jsx"; ".ts"; ".tsx"] -> False).
    { intros Hi.
      rewrite (index_script h webpackEnv resource) in Hsel.
      - destruct (startsWith (appSrc (paths h)) resource);
          [discriminate|].
        destruct (regexp_test scriptRegex resource
                  && negb (regexp_test babelRuntimeRegex resource));
          discriminate.
      - cbn [regexp_test appScriptRegex anyRegExp].
        apply existsb_exists. exists (endsWith e). split; [|exact He].
        cbn [In] in *. intuition (subst; auto 10). }
    cbn [In] in Himg, Hscr.
    repeat (destruct Hin as [<-|Hin]; [solve [intuition]|]).
    destruct Hin as [<-|Hin].
    { rewrite (index_css h webpackEnv resource He) in Hsel.
      destruct (endsWith ".module.css" resource); discriminate. }
    assert (Hsass : regexp_test sassRegex resource = true ->
                    False).
    { intros Hs. rewrite (index_sass h webpackEnv resource Hs) in Hsel.
      destruct (regexp_test sassModuleRegex resource); discriminate. }
    cbn [regexp_test sassRegex anyRegExp existsb] in Hsass.
    rewrite orb_false_r in Hsass.
    destruct Hin as [<-|Hin];
      [apply Hsass; rewrite He; reflexivity|].
    destruct Hin as [<-|Hin];
      [apply Hsass; rewrite He; apply orb_true_r|].
    destruct Hin as [<-|Hin].
    { rewrite (index_html_json h webpackEnv resource) in Hsel;
        [discriminate|]. rewrite He. reflexivity. }
    destruct Hin as [<-|Hin]; [|contradiction].
    rewrite (index_html_json h webpackEnv resource) in Hsel;
      [discriminate|]. rewrite He. apply orb_true_r.
  - apply index_unknown_extension.
Qed.

(** ** Loader chains *)

Lemma development_not_production (webpackEnv : string) :
  isEnvDevelopment webpackEnv = true -> isEnvProduction webpackEnv = true ->
  False.
Proof.
  intros Hd%isEnvDevelopment_iff Hp%isEnvProduction_iff. congruence.
Qed.

(** X7: whatever the mode string and the host, every rule of the list has
    a non-empty loader chain. *)
Theorem every_rule_has_loaders (h : Host) (webpackEnv : string) (r : Rule) :
  In r (module_rules_oneOf (webpack_config h webpackEnv)) ->
  rule_use r <> [].
Proof.
  cbn [module_rules_oneOf webpack_config]. unfold oneOf. cbn [In].
  intros Hin.
  repeat (destruct Hin as [<-|Hin]; [try discriminate|]);
    try contradiction.
  all: cbn [rule_use cssRule cssModuleRule sassRule sassModuleRule];
    unfold getStyleLoaders;
    destruct (isEnvDevelopment webpackEnv), (isEnvProduction webpackEnv);
    discriminate.
Qed.

Lemma every_rule_has_loaders_witness :
  let h := sampleHost [] true false in
  In (sassRule h "test") (module_rules_oneOf (webpack_config h "test"))
  /\ rule_use (sassRule h "test") <> [].
Proof.
  cbv zeta.
  assert (Hin : In (sassRule (sampleHost [] true false) "test")
                  (module_rules_oneOf
                     (webpack_config (sampleHost [] true false) "test")))
    by (cbn; tauto).
  split; [exact Hin|].
  exact (every_rule_has_loaders (sampleHost [] true false) "test" _ Hin).
Defined.

(** X8: in each of the four style rules the [importLoaders] option of the
    css-loader step equals the number of steps that follow css-loader in the
    chain (one for CSS, three for SASS), in every mode. *)
Theorem importLoaders_counts_following_steps (h : Host)
  (webpackEnv : string) (r : Rule) :
  In r (styleRules h webpackEnv) ->
  exists o rest,
    afterCssLoader (rule_use r) = Some (o, rest)
    /\ importLoaders o = Z.of_nat (length rest).
Proof.
  unfold styleRules. cbn [In]. intros Hin.
  repeat (destruct Hin as [<-|Hin]); try contradiction.
  all: cbn [rule_use cssRule cssModuleRule sassRule sassModuleRule];
    unfold getStyleLoaders;
    destruct (isEnvDevelopment webpackEnv), (isEnvProduction webpackEnv);
    cbn; eexists; eexists; split; reflexivity.
Qed.

Lemma importLoaders_counts_following_steps_witness :
  let h := sampleHost [] true false in
  In (sassModuleRule h "production") (styleRules h "production")
  /\ exists o rest,
       afterCssLoader (rule_use (sassModuleRule h "production"))
       = Some (o, rest)
       /\ importLoaders o = Z.of_nat (length rest).
Proof.
  cbv zeta.
  assert (Hin : In (sassModuleRule (sampleHost [] true false) "production")
                  (styleRules (sampleHost [] true false) "production"))
    by (cbn; tauto).
  split; [exact Hin|].
  exact (importLoaders_counts_following_steps
           (sampleHost [] true false) "production" _ Hin).
Defined.


(** ** Coherence between the parts of the configuration *)

Lemma In_classes (h : Host) (webpackEnv : string) (c : PluginClass) :
  In c (map classOf (plugins (webpack_config h webpackEnv))) <->
  match c with
  | HtmlEmission | EnvInterpolation | ModuleNotFoundDiagnostics
  | GlobalDefine | AssetManifest | LocaleStripping | LintOnBuild => True
  | RuntimeChunkInlining =>
      isEnvProduction webpackEnv && shouldInlineRuntimeChunk h = true
  | HotModuleReplacement | CaseSensitivityGuard | MissingModuleWatcher =>
      isEnvDevelopment webpackEnv = true
  | FastRefresh =>
      isEnvDevelopment webpackEnv && env_raw_FAST_REFRESH h = true
  | CssExtraction => isEnvProduction webpackEnv = true
  | ServiceWorkerInjection =>
      isEnvProduction webpackEnv && fs_existsSync h (swSrc (paths h)) = true
  | TypeChecking => useTypeScript h = true
  end.
Proof.
  rewrite plugin_classes.
  destruct (isEnvProduction webpackEnv), (isEnvDevelopment webpackEnv),
    (shouldInlineRuntimeChunk h), (env_raw_FAST_REFRESH h),
    (fs_existsSync h (swSrc (paths h))), (useTypeScript h);
    destruct c; cbn; intuition discriminate.
Qed.

(** X10: the loader of the extraction plugin opens the chain of a style
    rule exactly when the extraction plugin is in the plugin list, and
    style-loader opens it exactly when the hot-module-replacement plugin is
    in the plugin list; this holds for each of the four style rules and for
    every mode string. *)
Theorem style_chain_head_matches_plugins (h : Host) (webpackEnv : string)
  (r : Rule) :
  In r (styleRules h webpackEnv) ->
  let classes := map classOf (plugins (webpack_config h webpackEnv)) in
  ((exists o, hd_error (rule_use r) =
                Some (UseObject (MiniCssExtractPlugin_loader h)
                        (MiniCssExtractOptions o)))
   <-> In CssExtraction classes)
  /\ (hd_error (rule_use r) = Some (UseString (resolved h "style-loader"))
      <-> In HotModuleReplacement classes).
Proof.
  intros Hin. cbv zeta. rewrite !In_classes.
  unfold styleRules in Hin. cbn [In] in Hin.
  repeat (destruct Hin as [<-|Hin]); try contradiction.
  all: cbn [rule_use cssRule cssModuleRule sassRule sassModuleRule];
    unfold getStyleLoaders;
    destruct (isEnvDevelopment webpackEnv) eqn:Hd;
    destruct (isEnvProduction webpackEnv) eqn:Hp;
    try (exfalso; eapply development_not_production; eassumption);
    cbn; (split; split); try discriminate; try reflexivity;
    try (intros [o [=]]); try (intros _; eexists; reflexivity).
Qed.

Lemma style_chain_head_matches_plugins_witness :
  let h := sampleHost [] true false in
  In (cssRule h "production") (styleRules h "production")
  /\ In CssExtraction
       (map classOf (plugins (webpack_config h "production")))
  /\ exists o, hd_error (rule_use (cssRule h "production")) =
                 Some (UseObject (MiniCssExtractPlugin_loader h)
                         (MiniCssExtractOptions o)).
Proof.
  cbv zeta.
  assert (Hin : In (cssRule (sampleHost [] true false) "production")
                  (styleRules (sampleHost [] true false) "production"))
    by (cbn; tauto).
  assert (Hplugin : In CssExtraction
                      (map classOf
                         (plugins (webpack_config (sampleHost [] true false)
                                     "production"))))
    by (cbn; tauto).
  split; [exact Hin|]. split; [exact Hplugin|].
  destruct (style_chain_head_matches_plugins
              (sampleHost [] true false) "production" _ Hin) as [Hext _].
  apply Hext. exact Hplugin.
Defined.

(** X11: in Production the variable GENERATE_SOURCEMAP is the one switch
    of the source maps: the devtool, both minimizers and the source-map
    option of every step of every style rule follow it, with the single
    exception of the preprocessor step, which keeps source maps on; and
    the switch is off only when the variable is exactly ["false"]. *)
Theorem production_source_map_switch (h : Host) :
  let c := webpack_config h "production" in
  let sm := shouldUseSourceMap h in
  (sm = false <-> process_env h "GENERATE_SOURCEMAP" = Some "false")
  /\ devtool c = (if sm then Some "source-map" else None)
  /\ (forall m, In m (minimizer (optimization c)) ->
        minimizerSourceMapOf m = sm)
  /\ (forall r step, In r (styleRules h "production") ->
        In step (rule_use r) ->
        sourceMapOf step = None
        \/ sourceMapOf step = Some sm
        \/ (step = UseObject (resolved h "sass-loader")
                     (PreProcessorOptions true))).
Proof.
  cbv zeta. split; [|split; [|split]].
  - unfold shouldUseSourceMap, strict_neq.
    destruct (process_env h "GENERATE_SOURCEMAP") as [s|].
    + rewrite negb_false_iff, String.eqb_eq. split; congruence.
    + split; discriminate.
  - reflexivity.
  - cbn [optimization webpack_config optimization_ minimizer In].
    intros m [<-|[<-|[]]]; cbn [minimizerSourceMapOf];
      [reflexivity|]. destruct (shouldUseSourceMap h); reflexivity.
  - intros r step Hr. unfold styleRules in Hr. cbn [In] in Hr.
    repeat (destruct Hr as [<-|Hr]); try contradiction.
    all: cbn; intros Hs;
      repeat (destruct Hs as [<-|Hs]; [cbn; auto|]); contradiction.
Qed.

Lemma production_source_map_switch_witness :
  let h := sampleHost [("GENERATE_SOURCEMAP", "false")] true false in
  process_env h "GENERATE_SOURCEMAP" = Some "false"
  /\ shouldUseSourceMap h = false
  /\ devtool (webpack_config h "production") = None.
Proof.
  cbv zeta.
  destruct (production_source_map_switch
              (sampleHost [("GENERATE_SOURCEMAP", "false")] true false))
    as (Hoff & Hdev & _).
  split; [reflexivity|]. split; [apply Hoff; reflexivity|].
  rewrite Hdev. reflexivity.
Defined.

(** X12: in Development the variable GENERATE_SOURCEMAP changes neither
    the devtool nor the style chains: the devtool is
    [cheap-module-source-map] and every step of every style rule that has a
    source-map option has it on. *)
Theorem development_source_maps_always_on (h : Host) :
  let c := webpack_config h "development" in
  devtool c = Some "cheap-module-source-map"
  /\ (forall r step, In r (styleRules h "development") ->
        In step (rule_use r) ->
        sourceMapOf step = None \/ sourceMapOf step = Some true).
Proof.
  cbv zeta. split; [reflexivity|].
  intros r step Hr. unfold styleRules in Hr. cbn [In] in Hr.
  repeat (destruct Hr as [<-|Hr]); try contradiction.
  all: cbn; intros Hs;
    repeat (destruct Hs as [<-|Hs]; [cbn; auto|]); contradiction.
Qed.

Lemma development_source_maps_always_on_witness :
  let h := sampleHost [("GENERATE_SOURCEMAP", "false")] true false in
  In (sassRule h "development") (styleRules h "development")
  /\ forall step, In step (rule_use (sassRule h "development")) ->
       sourceMapOf step = None \/ sourceMapOf step = Some true.
Proof.
  cbv zeta.
  assert (Hin : In (sassRule
                      (sampleHost [("GENERATE_SOURCEMAP", "false")] true
                         false) "development")
                  (styleRules
                     (sampleHost [("GENERATE_SOURCEMAP", "false")] true
                        false) "development"))
    by (cbn; tauto).
  split; [exact Hin|]. intros step Hstep.
  exact (proj2 (development_source_maps_always_on
                  (sampleHost [("GENERATE_SOURCEMAP", "false")] true false))
           _ step Hin Hstep).
Defined.

(** ** The plugin list, for every mode string *)

(** X13: whatever the host and the mode string, the enabled plugins keep
    the order of the literal array (their positions there increase
    strictly, so no class occurs twice), the list opens with the HTML plugin
    and closes with the lint plugin, and it has between 7 and 12 entries. *)
Theorem plugins_keep_priority_order (h : Host) (webpackEnv : string) :
  let classes := map classOf (plugins (webpack_config h webpackEnv)) in
  StronglySorted lt (map rank classes)
  /\ NoDup classes
  /\ hd_error classes = Some HtmlEmission
  /\ last classes HtmlEmission = LintOnBuild
  /\ (7 <= length classes <= 12)%nat.
Proof.
  cbv zeta. rewrite plugin_classes.
  destruct (isEnvProduction webpackEnv) eqn:Hp;
    destruct (isEnvDevelopment webpackEnv) eqn:Hd;
    try (exfalso; eapply development_not_production; eassumption);
    destruct (shouldInlineRuntimeChunk h), (env_raw_FAST_REFRESH h),
      (fs_existsSync h (swSrc (paths h))), (useTypeScript h);
    cbn [andb guard filter_Boolean map rank length hd_error last];
    (split; [repeat constructor; lia|]);
    (split; [repeat constructor; cbn [In]; intuition discriminate|]);
    (split; [reflexivity|]); (split; [reflexivity|]); lia.
Qed.

(** X14: the activation matrix.  For every host and mode string, seven
    plugins are always enabled; hot-module-replacement, the case-sensitivity
    guard and the missing-module watcher exactly in Development;
    fast-refresh exactly in Development with the fast-refresh flag; CSS
    extraction exactly in Production; runtime-chunk inlining exactly in
    Production unless INLINE_RUNTIME_CHUNK is ["false"]; service-worker
    injection exactly in Production when the service-worker source exists;
    type checking exactly when the TypeScript configuration exists, in any
    mode.  No configuration has a Development-only and a Production-only
    plugin together. *)
Theorem plugin_activation_matrix (h : Host) (webpackEnv : string) :
  let classes := map classOf (plugins (webpack_config h webpackEnv)) in
  (forall c, In c [HtmlEmission; EnvInterpolation;
                   ModuleNotFoundDiagnostics; GlobalDefine; AssetManifest;
                   LocaleStripping; LintOnBuild] -> In c classes)
  /\ (forall c, In c [HotModuleReplacement; CaseSensitivityGuard;
                      MissingModuleWatcher] ->
        (In c classes <-> webpackEnv = "development"))
  /\ (In FastRefresh classes <->
      webpackEnv = "development" /\ env_raw_FAST_REFRESH h = true)
  /\ (In CssExtraction classes <-> webpackEnv = "production")
  /\ (In RuntimeChunkInlining classes <->
      webpackEnv = "production"
      /\ process_env h "INLINE_RUNTIME_CHUNK" <> Some "false")
  /\ (In ServiceWorkerInjection classes <->
      webpackEnv = "production"
      /\ fs_existsSync h (swSrc (paths h)) = true)
  /\ (In TypeChecking classes <->
      fs_existsSync h (appTsConfig (paths h)) = true)
  /\ (forall d p,
        In d [HotModuleReplacement; FastRefresh; CaseSensitivityGuard;
              MissingModuleWatcher] ->
        In p [RuntimeChunkInlining; CssExtraction;
              ServiceWorkerInjection] ->
        In d classes -> In p classes -> False).
Proof.
  cbv zeta.
  assert (Hinline : shouldInlineRuntimeChunk h = true <->
                    process_env h "INLINE_RUNTIME_CHUNK" <> Some "false").
  { unfold shouldInlineRuntimeChunk, strict_neq.
    destruct (process_env h "INLINE_RUNTIME_CHUNK") as [s|].
    - rewrite negb_true_iff, String.eqb_neq. split; congruence.
    - split; [discriminate|reflexivity]. }
  repeat split.
  - intros c Hc. apply In_classes. cbn [In] in Hc.
    repeat (destruct Hc as [<-|Hc]; [exact I|]). contradiction.
  - intros Hin. apply In_classes in Hin. cbn [In] in H.
    apply isEnvDevelopment_iff.
    repeat (destruct H as [<-|H]; [exact Hin|]). contradiction.
  - intros ->. apply In_classes. cbn [In] in H.
    repeat (destruct H as [<-|H]; [reflexivity|]). contradiction.
  - apply In_classes, andb_true_iff in H.
    apply isEnvDevelopment_iff. tauto.
  - apply In_classes, andb_true_iff in H. tauto.
  - intros [-> Hfr]. apply In_classes. rewrite Hfr. reflexivity.
  - intros Hin. apply In_classes in Hin.
    apply isEnvProduction_iff. exact Hin.
  - intros ->. apply In_classes. reflexivity.
  - apply In_classes, andb_true_iff in H.
    apply isEnvProduction_iff. tauto.
  - apply In_classes, andb_true_iff in H. apply Hinline. tauto.
  - intros [-> Hv]. apply In_classes. apply Hinline in Hv.
    rewrite Hv. reflexivity.
  - apply In_classes, andb_true_iff in H.
    apply isEnvProduction_iff. tauto.
  - apply In_classes, andb_true_iff in H. tauto.
  - intros [-> Hsw]. apply In_classes. rewrite Hsw. reflexivity.
  - intros Hin. apply In_classes in Hin. exact Hin.
  - intros Hts. apply In_classes. exact Hts.
  - intros d p Hd Hp Hind Hinp.
    apply In_classes in Hind. apply In_classes in Hinp.
    apply (development_not_production webpackEnv).
    + cbn [In] in Hd.
      repeat (destruct Hd as [<-|Hd];
              [try apply andb_true_iff in Hind; tauto|]).
      contradiction.
    + cbn [In] in Hp.
      repeat (destruct Hp as [<-|Hp];
              [try apply andb_true_iff in Hinp; tauto|]).
      contradiction.
Qed.

Lemma overlay_entries (h : Host) (webpackEnv : string) :
  filter_Boolean
    (map overlayEntryOf (plugins (webpack_config h webpackEnv))) =
  if isEnvDevelopment webpackEnv && env_raw_FAST_REFRESH h
  then [webpackDevClientEntry h] else [].
Proof.
  cbn [plugins webpack_config].
  unfold plugins_, plugins_literal, shouldUseReactRefresh.
  destruct (isEnvProduction webpackEnv), (isEnvDevelopment webpackEnv),
    (shouldInlineRuntimeChunk h), (env_raw_FAST_REFRESH h),
    (fs_existsSync h (swSrc (paths h))), (useTypeScript h);
    reflexivity.
Qed.

(** X15: fast refresh is wired consistently.  The [react-refresh/babel]
    plugin is among the Babel plugins of the application script rule exactly
    when the fast-refresh plugin is in the plugin list.  When it is, the
    entry is the single application index, the plugin receives the
    dev-server client as its overlay entry, and hot-module-replacement is
    enabled too; in Development without it, the dev-server client is the
    first element of the entry array.  Outside Development the dev-server
    client is supplied in neither way. *)
Theorem fast_refresh_wiring (h : Host) (webpackEnv : string) :
  let c := webpack_config h webpackEnv in
  let babel :=
    flat_map babelPluginPathsOf (rule_use (appScriptRule h webpackEnv)) in
  let overlays := filter_Boolean (map overlayEntryOf (plugins c)) in
  let refresh := In FastRefresh (map classOf (plugins c)) in
  (babel = [resolved h "babel-plugin-named-asset-import";
            resolved h "react-refresh/babel"] <-> refresh)
  /\ (babel = [resolved h "babel-plugin-named-asset-import"] <-> ~ refresh)
  /\ (refresh ->
      entry c = EntryPath (appIndexJs (paths h))
      /\ overlays = [webpackDevClientEntry h]
      /\ In HotModuleReplacement (map classOf (plugins c)))
  /\ (webpackEnv = "development" -> ~ refresh ->
      entry c = EntryArray [webpackDevClientEntry h; appIndexJs (paths h)]
      /\ overlays = [])
  /\ (webpackEnv <> "development" ->
      entry c = EntryPath (appIndexJs (paths h)) /\ overlays = []).
Proof.
  cbv zeta. rewrite !In_classes, overlay_entries.
  cbn [entry webpack_config rule_use appScriptRule flat_map
       babelPluginPathsOf].
  unfold entry_, shouldUseReactRefresh.
  assert (Hnd : isEnvDevelopment webpackEnv = false ->
                webpackEnv <> "development")
    by (intros E He; apply isEnvDevelopment_iff in He; congruence).
  destruct (isEnvDevelopment webpackEnv) eqn:Hd;
    destruct (env_raw_FAST_REFRESH h) eqn:Hfr;
    cbn [andb negb guard filter_Boolean map app].
  all: try apply isEnvDevelopment_iff in Hd.
  all: try specialize (Hnd eq_refl).
  all: intuition (auto; try discriminate; try congruence).
Qed.

(** X16: the JSX runtime is chosen coherently.  The Babel preset of the
    application rule runs in classic mode exactly when the lint plugin
    carries the rule [react/react-in-jsx-scope]; both follow
    [hasJsxRuntime], which is off whenever DISABLE_NEW_JSX_TRANSFORM is
    ["true"], even if the new runtime can be resolved. *)
Theorem jsx_runtime_coherence (h : Host) (webpackEnv : string) :
  let c := webpack_config h webpackEnv in
  let runtimes :=
    flat_map jsxRuntimesOf (rule_use (appScriptRule h webpackEnv)) in
  let lintRules := flat_map eslintRulesOf (plugins c) in
  (runtimes = [classic] <->
   lintRules = [("react/react-in-jsx-scope", "error")])
  /\ (runtimes = [automatic] <-> lintRules = [])
  /\ (runtimes = [automatic] <-> hasJsxRuntime h = true)
  /\ (process_env h "DISABLE_NEW_JSX_TRANSFORM" = Some "true" ->
      runtimes = [classic])
  /\ (hasJsxRuntime h = true <->
      process_env h "DISABLE_NEW_JSX_TRANSFORM" <> Some "true"
      /\ require_resolve h "react/jsx-runtime" <> None).
Proof.
  cbv zeta.
  assert (Hlint : flat_map eslintRulesOf
                    (plugins (webpack_config h webpackEnv)) =
                  if negb (hasJsxRuntime h)
                  then [("react/react-in-jsx-scope", "error")] else []).
  { cbn [plugins webpack_config]. unfold plugins_, plugins_literal.
    destruct (isEnvProduction webpackEnv), (isEnvDevelopment webpackEnv),
      (shouldInlineRuntimeChunk h), (shouldUseReactRefresh h),
      (fs_existsSync h (swSrc (paths h))), (useTypeScript h);
      cbn; rewrite ?app_nil_r; reflexivity. }
  rewrite Hlint.
  cbn [rule_use appScriptRule flat_map jsxRuntimesOf map snd app].
  assert (Hjsx : hasJsxRuntime h = true <->
                 process_env h "DISABLE_NEW_JSX_TRANSFORM" <> Some "true"
                 /\ require_resolve h "react/jsx-runtime" <> None).
  { unfold hasJsxRuntime, strict_eq, strict_neq.
    destruct (process_env h "DISABLE_NEW_JSX_TRANSFORM") as [s|].
    - rewrite negb_involutive.
      destruct (String.eqb_spec s "true") as [->|Hne].
      + split; [discriminate|]. intros [Hc _]. congruence.
      + destruct (require_resolve h "react/jsx-runtime").
        * split; [|reflexivity]. intros _. split; congruence.
        * split; [discriminate|]. intros [_ Hc]. congruence.
    - cbn [negb].
      destruct (require_resolve h "react/jsx-runtime").
      + split; [|reflexivity]. intros _. split; discriminate.
      + split; [discriminate|]. intros [_ Hc]. congruence. }
  split; [|split; [|split; [|split]]].
  - destruct (hasJsxRuntime h); cbn; split; congruence.
  - destruct (hasJsxRuntime h); cbn; split; congruence.
  - destruct (hasJsxRuntime h); cbn; split; congruence.
  - intros Hoff. destruct (hasJsxRuntime h) eqn:E; [|reflexivity].
    destruct (proj1 Hjsx eq_refl) as [Hc _]. congruence.
  - exact Hjsx.
Qed.

(** X17: the mode-dependent fields agree with each other.  Production is
    the one mode with [bail], minimization, an output directory and HTML
    minification; Development is the one mode with path information in the
    output; and for any other mode string the [mode], the [devtool] and both
    output file name templates are [false]. *)
Theorem mode_fields_agree (h : Host) (webpackEnv : string)
  (project : Project) :
  let c := webpack_config h webpackEnv in
  let out := output_ h webpackEnv project in
  (mode c = Some "production" <-> webpackEnv = "production")
  /\ (bail c = true <-> webpackEnv = "production")
  /\ (minimize (optimization c) = true <-> webpackEnv = "production")
  /\ (output_path out = Some (appBuild (paths h)) <->
      webpackEnv = "production")
  /\ ((exists hm, hd_error (plugins c) =
                    Some (HtmlWebpackPlugin true (appHtml (paths h))
                            (Some hm)))
      <-> webpackEnv = "production")
  /\ (mode c = Some "development" <-> webpackEnv = "development")
  /\ (pathinfo out = true <-> webpackEnv = "development")
  /\ (webpackEnv <> "production" -> webpackEnv <> "development" ->
      mode c = None /\ devtool c = None
      /\ output_filename out = None /\ output_chunkFilename out = None).
Proof.
  cbv zeta.
  cbn [mode bail devtool optimization plugins webpack_config minimize
       optimization_ output_path pathinfo output_filename
       output_chunkFilename output_].
  unfold plugins_, plugins_literal. cbn [filter_Boolean hd_error].
  destruct (isEnvProduction webpackEnv) eqn:Hp;
    destruct (isEnvDevelopment webpackEnv) eqn:Hd;
    try (exfalso; eapply development_not_production; eassumption).
  all: try apply isEnvProduction_iff in Hp.
  all: try apply isEnvDevelopment_iff in Hd.
  all: assert (Hnp : isEnvProduction webpackEnv = false ->
                     webpackEnv <> "production")
         by (intros E He; apply isEnvProduction_iff in He; congruence).
  all: assert (Hnd : isEnvDevelopment webpackEnv = false ->
                     webpackEnv <> "development")
         by (intros E He; apply isEnvDevelopment_iff in He; congruence).
  all: cbn [guard]; repeat split; try reflexivity; try discriminate;
    try congruence; try tauto.
  all: try (intros; eexists; reflexivity).
  all: try (intros [hm [=]]).
  all: try (intros _; subst; discriminate).
  all: try (intros; exfalso; auto; fail).
Qed.

(** ** Module resolution *)

Lemma includes_after_dot (sub_tail s : string) :
  includes (String "t" sub_tail) (String "." s)
  = includes (String "t" sub_tail) s.
Proof. reflexivity. Qed.

(** X18: the resolved extensions are the project's module file extensions
    with a leading dot, in their order.  With a TypeScript configuration
    all of them are kept; without one, exactly those that contain ["ts"]
    anywhere are dropped (so [ts], [tsx] and [web.ts], but any other
    extension with these two letters as well). *)
Theorem resolve_extensions_filter (h : Host) (project : Project) :
  let exts := moduleFileExtensions project in
  let dotted := map (fun ext => ("." ++ ext)%string) exts in
  (useTypeScript h = true -> resolve_extensions h project = dotted)
  /\ (useTypeScript h = false ->
      resolve_extensions h project =
      map (fun ext => ("." ++ ext)%string)
        (filter (fun ext => negb (includes "ts" ext)) exts))
  /\ (forall e, In e (resolve_extensions h project) ->
        startsWith "." e = true /\ In e dotted).
Proof.
  cbv zeta. unfold resolve_extensions.
  split; [|split].
  - intros ->. cbn [orb].
    generalize (map (fun ext => ("." ++ ext)%string)
                  (moduleFileExtensions project)).
    intros l. induction l as [|x l IH]; cbn [filter]; congruence.
  - intros ->. cbn [orb].
    induction (moduleFileExtensions project) as [|x l IH]; cbn [map filter].
    + reflexivity.
    + change ("." ++ x)%string with (String "." x).
      rewrite includes_after_dot.
      destruct (includes "ts" x); cbn [negb map]; now rewrite IH.
  - intros e He. apply filter_In in He. destruct He as [He _].
    split; [|exact He].
    apply in_map_iff in He. destruct He as [x [<- _]].
    unfold startsWith. cbn. destruct x; reflexivity.
Qed.

Lemma resolve_extensions_filter_witness :
  let h := sampleHost [] true false in
  let project :=
    {| moduleFileExtensions := ["web.mjs"; "mjs"; "web.js"; "js"; "web.ts";
                                "ts"; "web.tsx"; "tsx"; "json"; "web.jsx";
                                "jsx"];
       appPackageJson_name := "my-react";
       additionalModulePaths := None;
       webpackAliases := None |} in
  useTypeScript h = false
  /\ resolve_extensions h project =
     [".web.mjs"; ".mjs"; ".web.js"; ".js"; ".json"; ".web.jsx"; ".jsx"].
Proof.
  cbv zeta. split; [reflexivity|].
  destruct (resolve_extensions_filter (sampleHost [] true false)
              {| moduleFileExtensions :=
                   ["web.mjs"; "mjs"; "web.js"; "js"; "web.ts"; "ts";
                    "web.tsx"; "tsx"; "json"; "web.jsx"; "jsx"];
                 appPackageJson_name := "my-react";
                 additionalModulePaths := None;
                 webpackAliases := None |}) as (_ & Hjs & _).
  rewrite Hjs; reflexivity.
Defined.

(** *** Lookups in objects *)

Lemma obj_get_update (o : JSObject) (k v k' : string) :
  obj_get (obj_update o k v) k' =
  if (k' =? k)%string
  then (if has_own o k then Some v else None)
  else obj_get o k'.
Proof.
  unfold has_own, obj_get.
  induction o as [|[k0 v0] o IH]; cbn [obj_update find fst option_map].
  - destruct (k' =? k)%string; reflexivity.
  - destruct (String.eqb_spec k0 k) as [->|Hne].
    + cbn [find fst]. rewrite (String.eqb_sym k k').
      destruct (k' =? k)%string; reflexivity.
    + cbn [find fst].
      destruct (String.eqb_spec k0 k') as [->|Hne'].
      * apply String.eqb_neq in Hne. rewrite Hne. reflexivity.
      * exact IH.
Qed.

Lemma obj_get_app_new (o : JSObject) (k v k' : string) :
  has_own o k = false ->
  obj_get (o ++ [(k, v)])%list k' =
  if (k' =? k)%string then Some v else obj_get o k'.
Proof.
  unfold has_own, obj_get. intros Hk.
  induction o as [|[k0 v0] o IH]; cbn [app find fst option_map].
  - rewrite (String.eqb_sym k k').
    destruct (k' =? k)%string; reflexivity.
  - cbn [find fst] in Hk.
    destruct (String.eqb_spec k0 k) as [->|Hne]; [discriminate Hk|].
    destruct (String.eqb_spec k0 k') as [->|Hne'].
    + cbn [option_map snd]. apply String.eqb_neq in Hne.
      rewrite Hne. reflexivity.
    + apply IH. exact Hk.
Qed.

Lemma obj_get_define (o : JSObject) (k v k' : string) :
  obj_get (obj_define o k v) k' =
  if (k' =? k)%string then Some v else obj_get o k'.
Proof.
  unfold obj_define. destruct (has_own o k) eqn:Hown.
  - rewrite obj_get_update, Hown. reflexivity.
  - apply obj_get_app_new. exact Hown.
Qed.

Lemma obj_get_assign (o : JSObject) (k v k' : string) :
  obj_get (obj_assign o k v) k' =
  if (k' =? k)%string
  then (if has_own o k || negb (k =? "__proto__")%string
        then Some v else None)
  else obj_get o k'.
Proof.
  unfold obj_assign. destruct (has_own o k) eqn:Hown.
  - rewrite obj_get_update, Hown. reflexivity.
  - cbn [orb]. destruct (k =? "__proto__")%string eqn:Hproto; cbn [negb].
    + destruct (String.eqb_spec k' k) as [->|Hne]; [|reflexivity].
      unfold has_own in Hown. destruct (obj_get o k); [discriminate|].
      reflexivity.
    + apply obj_get_app_new. exact Hown.
Qed.

(** A spread lets the properties of its source win. *)
Lemma obj_get_spread (target src : JSObject) (k : string) :
  wf_obj src ->
  obj_get (obj_spread target src) k =
  match obj_get src k with
  | Some v => Some v
  | None => obj_get target k
  end.
Proof.
  unfold obj_spread, wf_obj. revert target.
  induction src as [|[k0 v0] src IH]; intros target Hwf.
  - reflexivity.
  - cbn [fold_left fst snd]. cbn [map fst] in Hwf.
    apply NoDup_cons_iff in Hwf. destruct Hwf as [Hnotin Hwf].
    rewrite (IH _ Hwf), obj_get_define.
    unfold obj_get at 3. cbn [find fst].
    destruct (String.eqb_spec k0 k) as [->|Hne].
    + rewrite String.eqb_refl. cbn [option_map snd].
      assert (Hnone : obj_get src k = None).
      { unfold obj_get. destruct (find _ src) as [[k1 v1]|] eqn:Hf;
          [|reflexivity].
        apply find_some in Hf. destruct Hf as [Hin Heq].
        cbn [fst] in Heq. apply String.eqb_eq in Heq. subst k1.
        exfalso. apply Hnotin. apply in_map_iff.
        exists (k, v1). auto. }
      rewrite Hnone. reflexivity.
    + fold (obj_get src k).
      assert (Hkk : (k =? k0)%string = false)
        by (apply String.eqb_neq; congruence).
      rewrite Hkk. reflexivity.
Qed.

(** X19: the aliases of the project ([modules.webpackAliases]) win over
    the built-in ones.  For a name they do not define, [react-native] is
    aliased to [react-native-web] in every mode, [react-dom$] and
    [scheduler/tracing] are aliased to their profiling builds exactly when
    profiling is on, and no other name is aliased. *)
Theorem resolve_alias_lookup (h : Host) (webpackEnv : string)
  (project : Project) (k : string) :
  let user := match webpackAliases project with
              | Some aliases => aliases
              | None => []
              end in
  wf_obj user ->
  obj_get (resolve_alias h webpackEnv project) k =
  match obj_get user k with
  | Some v => Some v
  | None =>
      if (k =? "react-native")%string then Some "react-native-web"
      else if isEnvProductionProfile h webpackEnv
      then (if (k =? "react-dom$")%string then Some "react-dom/profiling"
            else if (k =? "scheduler/tracing")%string
            then Some "scheduler/tracing-profiling"
            else None)
      else None
  end.
Proof.
  cbv zeta. intros Hwf. unfold resolve_alias.
  rewrite (obj_get_spread _ _ _ Hwf).
  destruct (obj_get _ k) as [v|]; [reflexivity|].
  rewrite obj_get_spread.
  - destruct (isEnvProductionProfile h webpackEnv); unfold obj_get;
      cbn [find fst];
      rewrite !(String.eqb_sym _ k);
      repeat match goal with
             | |- context [(k =? ?s)%string] =>
                 destruct (String.eqb_spec k s); subst; try discriminate;
                 cbn
             end; try reflexivity; try congruence.
  - unfold wf_obj.
    destruct (isEnvProductionProfile h webpackEnv); cbn.
    + repeat constructor; cbn; intuition discriminate.
    + constructor.
Qed.

Lemma resolve_alias_lookup_witness :
  let h := sampleHost [] true false in
  let project :=
    {| moduleFileExtensions := ["js"];
       appPackageJson_name := "my-react";
       additionalModulePaths := None;
       webpackAliases := Some [("react-native", "my-native")] |} in
  wf_obj [("react-native", "my-native")]
  /\ obj_get (resolve_alias h "production" project) "react-native"
     = Some "my-native"
  /\ obj_get (resolve_alias h "production" project) "react-dom$" = None.
Proof.
  cbv zeta.
  assert (Hwf : wf_obj [("react-native", "my-native")])
    by (repeat constructor; cbn; tauto).
  split; [exact Hwf|]. split.
  - rewrite (resolve_alias_lookup (sampleHost [] true false) "production"
               {| moduleFileExtensions := ["js"];
                  appPackageJson_name := "my-react";
                  additionalModulePaths := None;
                  webpackAliases := Some [("react-native", "my-native")] |}
               "react-native" Hwf).
    reflexivity.
  - reflexivity.
Defined.

(** X20: profiling is switched on by one condition, Production together
    with [--profile] among the process arguments, and everything that
    depends on it agrees: the script minimizer keeps class and function
    names exactly then, and (when the project does not alias [react-dom$]
    itself) [react-dom$] resolves to the profiling build exactly then.  In
    Development [--profile] has no effect. *)
Theorem profiling_coherence (h : Host) (webpackEnv : string)
  (project : Project) :
  let profile := isEnvProductionProfile h webpackEnv in
  (profile = true <->
   webpackEnv = "production" /\ In "--profile" (process_argv h))
  /\ (forall o sm,
        In (TerserPlugin o sm)
          (minimizer (optimization (webpack_config h webpackEnv))) ->
        keep_classnames o = profile /\ keep_fnames o = profile)
  /\ (webpackAliases project = None ->
      (obj_get (resolve_alias h webpackEnv project) "react-dom$"
       = Some "react-dom/profiling" <-> profile = true)
      /\ (obj_get (resolve_alias h webpackEnv project) "react-dom$" = None
          <-> profile = false)).
Proof.
  cbv zeta. split; [|split].
  - unfold isEnvProductionProfile, array_includes.
    rewrite andb_true_iff, isEnvProduction_iff, existsb_exists.
    split.
    + intros [Hp [x [Hin Hx]]]. apply String.eqb_eq in Hx. subst x. auto.
    + intros [Hp Hin]. split; [exact Hp|].
      exists "--profile". split; [exact Hin|reflexivity].
  - cbn [optimization webpack_config optimization_ minimizer In].
    intros o sm [Heq|[Heq|[]]]; [|discriminate Heq].
    injection Heq as <- _. split; reflexivity.
  - intros Hnone. unfold resolve_alias. rewrite Hnone.
    destruct (isEnvProductionProfile h webpackEnv); cbn;
      split; split; congruence.
Qed.

(** ** The manifest *)

Lemma fold_assign_snoc (seed : JSObject) (files : list FileDescriptor)
  (f : FileDescriptor) :
  manifest_files (generate seed (files ++ [f]) {| main := [] |}) =
  obj_assign (manifest_files (generate seed files {| main := [] |}))
    (file_name f) (file_path f).
Proof. cbn. rewrite fold_left_app. reflexivity. Qed.

Lemma generate_files_entrypoints_free (seed : JSObject)
  (files : list FileDescriptor) (e e' : Entrypoints) :
  manifest_files (generate seed files e)
  = manifest_files (generate seed files e').
Proof. reflexivity. Qed.

(** X21: the [files] object of the manifest maps the name of every emitted
    file (other than [__proto__]) to its path, the last file winning when
    two share a name; a name that no file has keeps the value it had in the
    seed. *)
Theorem manifest_files_lookup (seed : JSObject)
  (files : list FileDescriptor) (entrypoints : Entrypoints) (k : string) :
  k <> "__proto__" ->
  obj_get (manifest_files (generate seed files entrypoints)) k =
  match find (fun f => (file_name f =? k)%string) (rev files) with
  | Some f => Some (file_path f)
  | None => obj_get seed k
  end.
Proof.
  intros Hk.
  rewrite (generate_files_entrypoints_free _ _ _ {| main := [] |}).
  induction files as [|f files IH] using rev_ind.
  - reflexivity.
  - rewrite fold_assign_snoc, rev_app_distr. cbn [rev app find].
    rewrite obj_get_assign, (String.eqb_sym k).
    destruct (String.eqb_spec (file_name f) k) as [Heq|Hne].
    + rewrite Heq. apply String.eqb_neq in Hk. rewrite Hk.
      rewrite orb_true_r. reflexivity.
    + exact IH.
Qed.

Lemma manifest_files_lookup_witness :
  let files := [ {| file_name := "main.js";
                    file_path := "/static/js/main.1.js" |};
                 {| file_name := "main.css";
                    file_path := "/static/css/main.css" |};
                 {| file_name := "main.js";
                    file_path := "/static/js/main.2.js" |} ] in
  "main.js" <> "__proto__"
  /\ obj_get (manifest_files (generate [] files {| main := [] |})) "main.js"
     = Some "/static/js/main.2.js".
Proof.
  cbv zeta. split; [discriminate|].
  rewrite manifest_files_lookup; [reflexivity|discriminate].
Defined.

(** X22: a file named [__proto__] is never recorded: when the seed has no
    own property of that name, neither has the [files] object, whatever the
    emitted files. *)
Theorem manifest_never_records_proto (seed : JSObject)
  (files : list FileDescriptor) (entrypoints : Entrypoints) :
  obj_get seed "__proto__" = None ->
  obj_get (manifest_files (generate seed files entrypoints)) "__proto__"
  = None.
Proof.
  intros Hseed.
  rewrite (generate_files_entrypoints_free _ _ _ {| main := [] |}).
  induction files as [|f files IH] using rev_ind.
  - exact Hseed.
  - rewrite fold_assign_snoc, obj_get_assign.
    destruct (String.eqb_spec "__proto__" (file_name f)) as [Heq|Hne];
      [|exact IH].
    rewrite <- Heq. unfold has_own. rewrite IH. reflexivity.
Qed.

Lemma manifest_never_records_proto_witness :
  let files := [ {| file_name := "__proto__"; file_path := "/x" |} ] in
  obj_get [] "__proto__" = None
  /\ obj_get (manifest_files (generate [] files {| main := [] |}))
       "__proto__" = None.
Proof.
  cbv zeta. split; [reflexivity|].
  apply manifest_never_records_proto. reflexivity.
Defined.

(** X23: [generate] accumulates into its seed: running it on a second
    batch of files with the [files] object of a first run as seed gives the
    [files] object of one run on both batches.  Its [entrypoints] hold the
    main files that do not end in [.map], and depend on neither the seed nor
    the files. *)
Theorem generate_accumulates (seed : JSObject)
  (files1 files2 : list FileDescriptor) (e1 e2 : Entrypoints) :
  let first := generate seed files1 e1 in
  let second := generate (manifest_files first) files2 e2 in
  manifest_files second
  = manifest_files (generate seed (files1 ++ files2) e2)
  /\ manifest_entrypoints second
     = manifest_entrypoints (generate [] [] e2)
  /\ (forall f, In f (manifest_entrypoints second) <->
        In f (main e2) /\ endsWith ".map" f = false).
Proof.
  cbv zeta. split; [|split].
  - cbn. rewrite fold_left_app. reflexivity.
  - reflexivity.
  - intros f. cbn [manifest_entrypoints generate].
    rewrite filter_In, negb_true_iff. reflexivity.
Qed.

(** ** Reading the image inline size limit *)























Lemma radixDigit_nonneg (R : Z) (c : ascii) (d : Z) :
  radixDigit R c = Some d -> 0 <= d.
Proof.
  unfold radixDigit, digitValue.
  destruct ((48 <=? Z.of_nat (nat_of_ascii c))
            && (Z.of_nat (nat_of_ascii c) <=? 57)) eqn:E1.
  - destruct (_ <? R); [|discriminate]. intros [= <-].
    apply andb_true_iff in E1. lia.
  - destruct ((97 <=? Z.of_nat (nat_of_ascii c))
              && (Z.of_nat (nat_of_ascii c) <=? 122)) eqn:E2.
    + destruct (_ <? R); [|discriminate]. intros [= <-].
      apply andb_true_iff in E2. lia.
    + destruct ((65 <=? Z.of_nat (nat_of_ascii c))
                && (Z.of_nat (nat_of_ascii c) <=? 90)) eqn:E3;
        [|discriminate].
      destruct (_ <? R); [|discriminate]. intros [= <-].
      apply andb_true_iff in E3. lia.
Qed.

Lemma parseDigits_nonneg (R : Z) (s : string) (acc : option Z) (m : Z) :
  0 <= R ->
  (forall a, acc = Some a -> 0 <= a) ->
  parseDigits R acc s = Some m -> 0 <= m.
Proof.
  intros HR. revert acc.
  induction s as [|c s IH]; intros acc Hacc; cbn [parseDigits].
  - intros ->. now apply Hacc.
  - destruct (radixDigit R c) as [d|] eqn:Hd.
    + apply IH. intros a [= <-].
      apply radixDigit_nonneg in Hd.
      destruct acc as [a0|]; [|exact Hd].
      specialize (Hacc a0 eq_refl). nia.
    + intros ->. now apply Hacc.
Qed.

Lemma stripPrefix_radix (s : string) :
  fst (stripPrefix s) = 10 \/ fst (stripPrefix s) = 16.
Proof.
  destruct s as [|c [|x s]].
  - left. reflexivity.
  - left. destruct c as [[] [] [] [] [] [] [] []]; reflexivity.
  - destruct (Ascii.eqb_spec c "0") as [->|Hne].
    + cbn [stripPrefix].
      destruct ((x =? "x")%char || (x =? "X")%char); auto.
    + left. rewrite stripPrefix_other by exact Hne. reflexivity.
Qed.

Lemma parseInt_negative (s : string) (z : Z) :
  parseInt s = Num z -> z < 0 -> prefix "-" (trimStart s) = true.
Proof.
  unfold parseInt. intros Hparse Hneg.
  destruct (prefix "-" (trimStart s)); [reflexivity|exfalso].
  pose proof (stripPrefix_radix (dropSign (trimStart s))) as HR.
  destruct (stripPrefix (dropSign (trimStart s))) as [R S2].
  cbn [fst] in HR.
  destruct (parseDigits R None S2) as [m|] eqn:Hm; [|discriminate].
  injection Hparse as <-.
  apply parseDigits_nonneg in Hm; [|lia|discriminate].
  destruct m; cbn in Hneg; lia.
Qed.

(** X26: the limit is negative only when the variable is set and its value
    starts, after leading white space, with a minus sign; in every other
    case the limit is [NaN] or a non-negative integer. *)
Theorem imageInlineSizeLimit_negative_only_with_minus (h : Host) (z : Z) :
  imageInlineSizeLimit h = Num z ->
  z < 0 ->
  exists s, process_env h "IMAGE_INLINE_SIZE_LIMIT" = Some s
            /\ prefix "-" (trimStart s) = true.
Proof.
  unfold imageInlineSizeLimit. rewrite or_default_spec.
  destruct (process_env h "IMAGE_INLINE_SIZE_LIMIT") as [[|c s]|].
  - intros [= <-]. lia.
  - intros Hparse Hneg. exists (String c s). split; [reflexivity|].
    exact (parseInt_negative _ _ Hparse Hneg).
  - intros [= <-]. lia.
Qed.

Lemma imageInlineSizeLimit_negative_only_with_minus_witness :
  let h := sampleHost [("IMAGE_INLINE_SIZE_LIMIT", " -42")] true false in
  imageInlineSizeLimit h = Num (-42)
  /\ -42 < 0
  /\ exists s, process_env h "IMAGE_INLINE_SIZE_LIMIT" = Some s
               /\ prefix "-" (trimStart s) = true.
Proof.
  cbv zeta. split; [reflexivity|]. split; [lia|].
  apply (imageInlineSizeLimit_negative_only_with_minus
           (sampleHost [("IMAGE_INLINE_SIZE_LIMIT", " -42")] true false)
           (-42)).
  - reflexivity.
  - lia.
Defined.
